(** * TourApp: the authentication controller

    A shallow embedding of [src/server/controllers/authController.js].

    Every exported handler of the controller is an [async] Express handler
    wrapped in [catchAsync].  It is embedded as a function from the request
    and the state of the world to a reply and the new state of the world.
    The world holds what the handlers can change or observe: the [users]
    collection, the mails handed to the mailer, the tokens signed so far, the
    console, the randomness consumed and the clock.

    The libraries the controller calls ([jsonwebtoken], [crypto], [bcrypt]
    behind [correctPassword], the mail transport) and the environment
    ([process.env]) are parameters of the development. *)

From Stdlib Require Import String Ascii List ZArith Bool Lia.
Import ListNotations.

Local Open Scope string_scope.
Local Open Scope Z_scope.

(** ** JavaScript values as the controller uses them *)

Module Js.

(** [ToBoolean]: the test of [if (x)], [!x] and [||].  [undefined] and
    [null] are the [None] of an option; an object is always truthy; a
    string is truthy unless it is empty. *)
Class ToBoolean (A : Type) := truthy : A -> bool.

#[global] Instance string_ToBoolean : ToBoolean string :=
  fun s => negb (s =? "")%string.

#[global] Instance option_ToBoolean {A} `{ToBoolean A} : ToBoolean (option A) :=
  fun o => match o with Some a => truthy a | None => false end.

(** [`${x}`] for a string that may be [undefined]. *)
Definition interpolate (x : option string) : string :=
  match x with Some s => s | None => "undefined" end.

(** [a === b] for a value that may be [undefined] against a string. *)
Definition strict_eq (a : option string) (b : string) : bool :=
  match a with Some s => (s =? b)%string | None => false end.

(** [a != b] for a value that may be [undefined] against a string: on two
    strings the loose comparison is the comparison of their characters, and
    [undefined] is loosely equal to [null] and [undefined] only. *)
Definition loose_neq (a : option string) (b : string) : bool :=
  match a with Some s => negb (s =? b)%string | None => true end.

(** [s.startsWith(p)] *)
Definition startsWith (s p : string) : bool := String.prefix p s.

(** [s.split(" ")]: the pieces of [s] between single spaces. *)
Fixpoint split_space (s : string) : list string :=
  match s with
  | EmptyString => [""%string]
  | String c rest =>
      if Ascii.eqb c " "%char then ""%string :: split_space rest
      else match split_space rest with
           | piece :: pieces => String c piece :: pieces
           | [] => [String c ""]
           end
  end.

(** [xs[i]]: [undefined] out of range. *)
Definition index {A} (xs : list A) (i : nat) : option A := nth_error xs i.

(** [!s.includes(" ")] *)
Fixpoint no_space (s : string) : bool :=
  match s with
  | EmptyString => true
  | String c rest => negb (Ascii.eqb c " "%char) && no_space rest
  end.


End Js.
Import Js.

(** ** Errors and completions *)

(** What a library call fails with: a JavaScript [Error] with its [name] and
    [message]. *)
Record LibError := mkLibError { err_name : string; err_message : string }.

(** What a handler can throw or pass to [next]: the application's own
    [AppError(message, statusCode)], or an error of a library or of the
    runtime. *)
Inductive Exn :=
| AppError (message : string) (statusCode : Z)
| JsError (e : LibError).

Definition TypeError (message : string) : Exn :=
  JsError (mkLibError "TypeError" message).

(** [err.message] *)
Definition message_of (e : Exn) : string :=
  match e with
  | AppError m _ => m
  | JsError le => err_message le
  end.

Inductive Completion (A : Type) :=
| Normal (a : A)
| Throw (e : Exn).
Arguments Normal {A} a.
Arguments Throw {A} e.

(** ** Data *)

(** The registration fields of [req.body], as [verifyAccount] packs them
    into the verification token.  Any of them may be [undefined]. *)
Record Registration := mkRegistration {
  reg_name : option string;
  reg_email : option string;
  reg_password : option string;
  reg_passwordConfirm : option string
}.

(** A document of the [users] collection, as stored and as loaded.
    [u_passwordConfirm] lives in memory only; [u_passwordModified] is
    Mongoose's [isModified("password")]. *)
Record UserDoc := mkUserDoc {
  u_id : string;
  u_name : option string;
  u_email : string;
  u_password : option string;
  u_passwordConfirm : option string;
  u_passwordChangedAt : option Z;
  u_passwordResetToken : option string;
  u_passwordResetExpires : option Z;
  u_passwordModified : bool
}.

#[global] Instance UserDoc_ToBoolean : ToBoolean UserDoc := fun _ => true.

Definition set_password (p : option string) (u : UserDoc) : UserDoc :=
  mkUserDoc (u_id u) (u_name u) (u_email u) p (u_passwordConfirm u)
    (u_passwordChangedAt u) (u_passwordResetToken u) (u_passwordResetExpires u)
    true.

Definition set_passwordConfirm (p : option string) (u : UserDoc) : UserDoc :=
  mkUserDoc (u_id u) (u_name u) (u_email u) (u_password u) p
    (u_passwordChangedAt u) (u_passwordResetToken u) (u_passwordResetExpires u)
    (u_passwordModified u).

Definition set_passwordResetToken (t : option string) (u : UserDoc) : UserDoc :=
  mkUserDoc (u_id u) (u_name u) (u_email u) (u_password u) (u_passwordConfirm u)
    (u_passwordChangedAt u) t (u_passwordResetExpires u) (u_passwordModified u).

Definition set_passwordResetExpires (t : option Z) (u : UserDoc) : UserDoc :=
  mkUserDoc (u_id u) (u_name u) (u_email u) (u_password u) (u_passwordConfirm u)
    (u_passwordChangedAt u) (u_passwordResetToken u) t (u_passwordModified u).

(** What [jwt.sign] is given to sign. *)
Inductive Claims :=
| VerificationClaims (user : Registration) (verifyToken : string)
| SubjectClaims (id : string).

(** An object that was signed, as [jwt.verify] decodes it, with the [iat]
    that [jwt.sign] stamps on an object.  A property the signed object did
    not have reads as [undefined]. *)
Record Decoded := mkDecoded {
  d_user : option Registration;
  d_verifyToken : option string;
  d_id : option string;
  d_iat : Z
}.

(** What [jwt.verify] returns for a token that verifies: the value that was
    signed.  The application signs objects only ([{ user, verifyToken }]
    here, [{ id }] in [utils/sendToken.js]), but a token signed with the
    same secret over a JSON string, number or boolean verifies as well and
    decodes to that value; of a number the controller can only tell
    whether it is zero. *)
Inductive Verified :=
| VObject (d : Decoded)
| VString (s : string)
| VNumber (n : Z)
| VBoolean (b : bool).

(** [ToBoolean] of a decoded value: an object is truthy; the empty
    string, [0] and [false] are not. *)
#[global] Instance Verified_ToBoolean : ToBoolean Verified :=
  fun v =>
    match v with
    | VObject _ => true
    | VString s => truthy s
    | VNumber n => negb (n =? 0)
    | VBoolean b => b
    end.

(** [decoded.user], [decoded.verifyToken], [decoded.id] and [decoded.iat]:
    a string, a number and a boolean have none of these properties. *)
Definition v_user (v : Verified) : option Registration :=
  match v with VObject d => d_user d | _ => None end.

Definition v_verifyToken (v : Verified) : option string :=
  match v with VObject d => d_verifyToken d | _ => None end.

Definition v_id (v : Verified) : option string :=
  match v with VObject d => d_id d | _ => None end.

Definition v_iat (v : Verified) : option Z :=
  match v with VObject d => Some (d_iat d) | _ => None end.

Inductive MailKind := ActivateRegistration | PasswordReset.

(** [new Email(user, data)] with the template it is sent with. *)
Record Mail := mkMail {
  m_kind : MailKind;
  m_to : option string;
  m_name : option string;
  m_token : string;
  m_url : string
}.

(** The options of [res.cookie(name, value, options)]; a flag the options
    do not set is off. *)
Record CookieOptions := mkCookieOptions {
  maxAge : option Z;
  httpOnly : bool;
  secure : bool
}.

Record Cookie := mkCookie {
  c_name : string;
  c_value : string;
  c_options : CookieOptions
}.

Inductive JsonValue :=
| JBool (b : bool)
| JString (s : string)
| JUser (u : UserDoc).

(** [res.cookie(...)] calls followed by [res.status(code).json(body)]. *)
Record Response := mkResponse {
  r_status : Z;
  r_cookies : list Cookie;
  r_json : list (string * JsonValue)
}.

(** How a handler ends: it sent a response, or it called [next(err)]. *)
Inductive Reply :=
| Sent (r : Response)
| Next (err : Exn).

Record Body := mkBody {
  b_name : option string;
  b_email : option string;
  b_password : option string;
  b_passwordConfirm : option string;
  b_oldPassword : option string;
  b_newPassword : option string
}.

Record Request := mkRequest {
  body : Body;
  headers_authorization : option string;
  params_verify_token : string;
  params_token : string;
  cookies_refresh_token : option string;
  protocol : string;
  host : option string;
  req_user : option UserDoc
}.

(** ** The world and the monad of the handlers *)

Record World := mkWorld {
  users : list UserDoc;
  outbox : list Mail;
  issued : list string;
  console : list string;
  entropy : nat;
  clock : Z
}.

Definition with_users (us : list UserDoc) (w : World) : World :=
  mkWorld us (outbox w) (issued w) (console w) (entropy w) (clock w).

Definition with_outbox (ms : list Mail) (w : World) : World :=
  mkWorld (users w) ms (issued w) (console w) (entropy w) (clock w).

Definition with_issued (ts : list string) (w : World) : World :=
  mkWorld (users w) (outbox w) ts (console w) (entropy w) (clock w).

Definition with_console (ls : list string) (w : World) : World :=
  mkWorld (users w) (outbox w) (issued w) ls (entropy w) (clock w).

Definition with_entropy (n : nat) (w : World) : World :=
  mkWorld (users w) (outbox w) (issued w) (console w) n (clock w).

Definition M (A : Type) : Type := World -> Completion A * World.

Definition ret {A} (a : A) : M A := fun w => (Normal a, w).

Definition throw {A} (e : Exn) : M A := fun w => (Throw e, w).

Definition bind {A B} (m : M A) (k : A -> M B) : M B :=
  fun w => match m w with
           | (Normal a, w') => k a w'
           | (Throw e, w') => (Throw e, w')
           end.

(** [try { m } catch (err) { handler }] *)
Definition try_catch {A} (m : M A) (handler : Exn -> M A) : M A :=
  fun w => match m w with
           | (Normal a, w') => (Normal a, w')
           | (Throw e, w') => handler e w'
           end.

Definition lift {A} (r : LibError + A) : M A :=
  match r with inr a => ret a | inl e => throw (JsError e) end.

Declare Scope auth_scope.
Delimit Scope auth_scope with auth.
Notation "x <- m ;; k" := (bind m (fun x => k))
  (at level 100, m at next level, right associativity) : auth_scope.
Notation "m ;;; k" := (bind m (fun _ => k))
  (at level 100, right associativity) : auth_scope.
Local Open Scope auth_scope.

(** [next(err)] and [res.status(code).json(body)], as the value a handler
    returns. *)
Definition next (err : Exn) : M Reply := ret (Next err).

Definition send (status : Z) (cookies : list Cookie)
    (json : list (string * JsonValue)) : M Reply :=
  ret (Sent (mkResponse status cookies json)).

(** Modelled from the spec: [catchAsync] of [utils/catchAsync.js], which is
    not among the sources.  "All flow-level failures are returned as typed
    results to the boundary layer": what the handler throws, or rejects
    with, is passed to [next]. *)
Definition catchAsync (fn : Request -> M Reply) (req : Request) (w : World)
    : Reply * World :=
  match fn req w with
  | (Normal r, w') => (r, w')
  | (Throw e, w') => (Next e, w')
  end.

(** ** The controller *)

(** What the controller takes from its surroundings. *)
Class Env := {
  (** [process.env] *)
  VERIFY_EMAIL_SECRET : string;
  VERIFY_EMAIL_EXPIRES_IN : string;
  ACCESS_TOKEN : string;
  REFRESH_TOKEN : string;

  (** [jsonwebtoken]: [jwt.sign(claims, secret, { expiresIn })] at a time of
      the clock, and [jwt.verify(token, secret)], which returns the decoded
      value or throws. *)
  jwt_sign : Claims -> string -> string -> Z -> string;
  jwt_verify : option string -> string -> Z -> LibError + Verified;

  (** [crypto]: the hexadecimal form of the [k]-th draw of [n] random bytes,
      and of the SHA-256 digest of a string. *)
  randomBytes_hex : nat -> nat -> string;
  sha256_hex : string -> string;

  (** The mail transport behind [Email]: [None] when the mail is delivered. *)
  transport : Mail -> option LibError;

  (** [models/userModel.js] is not among the sources.  Of the schema the
      controller needs: the method [correctPassword(candidate, stored)],
      which resolves to a boolean or rejects, the way passwords are hashed
      before they are stored, the rule a new password must satisfy, how long
      a reset token lives and how a new document gets its [_id]. *)
  correctPassword : option string -> option string -> LibError + bool;
  hashPassword : string -> string;
  passwordPolicy : string -> bool;
  resetTokenLifetime : Z;
  ObjectId : nat -> string;

  (** [utils/sendToken.js] is not among the sources: the cookie options it
      exports. *)
  accessTokenOptions : CookieOptions;
  refreshTokenOptions : CookieOptions
}.

Section AuthController.

Context {env : Env}.

(** *** Effects *)

Definition now : M Z := fun w => (Normal (clock w), w).

Definition sign (claims : Claims) (secret expiresIn : string) : M string :=
  fun w =>
    let token := jwt_sign claims secret expiresIn (clock w) in
    (Normal token, with_issued (token :: issued w) w).

Definition verify (token : option string) (secret : string) : M Verified :=
  fun w => lift (jwt_verify token secret (clock w)) w.

(** [crypto.randomBytes(n).toString("hex")] *)
Definition randomBytes (n : nat) : M string :=
  fun w => (Normal (randomBytes_hex n (entropy w)), with_entropy (S (entropy w)) w).

Definition console_log (line : string) : M unit :=
  fun w => (Normal tt, with_console (line :: console w) w).

(** [await new Email(user, data).<template>()] *)
Definition deliver (mail : Mail) : M unit :=
  fun w =>
    match transport mail with
    | None => (Normal tt, with_outbox (mail :: outbox w) w)
    | Some e => (Throw (JsError e), w)
    end.

(** *** The [User] model *)

(** A query without [.select("+password")] loads the document without its
    password. *)
Definition load (selectPassword : bool) (d : UserDoc) : UserDoc :=
  if selectPassword then d
  else mkUserDoc (u_id d) (u_name d) (u_email d) None None
         (u_passwordChangedAt d) (u_passwordResetToken d)
         (u_passwordResetExpires d) false.

(** [User.findOne({ email })], with or without [.select("+password")].
    Every stored document has an email, so a request without one finds
    nothing. *)
Definition findOne_email (email : option string) (selectPassword : bool)
    : M (option UserDoc) :=
  fun w =>
    (Normal match email with
            | Some e =>
                option_map (load selectPassword)
                  (find (fun d => (u_email d =? e)%string) (users w))
            | None => None
            end, w).

(** [User.findById(id)] *)
Definition findById (id : option string) (selectPassword : bool)
    : M (option UserDoc) :=
  fun w =>
    (Normal match id with
            | Some i =>
                option_map (load selectPassword)
                  (find (fun d => (u_id d =? i)%string) (users w))
            | None => None
            end, w).

Definition reset_matches (hashedToken : string) (t : Z) (d : UserDoc) : bool :=
  match u_passwordResetToken d, u_passwordResetExpires d with
  | Some h, Some expires => (h =? hashedToken)%string && (t <? expires)
  | _, _ => false
  end.

(** [User.findOne({ passwordResetToken: hashedToken,
                    passwordResetExpires: { $gt: Date.now() } })] *)
Definition findOne_reset (hashedToken : string) : M (option UserDoc) :=
  fun w =>
    (Normal (option_map (load false)
               (find (reset_matches hashedToken (clock w)) (users w))), w).

(** Modelled from the spec: the validation of the schema of
    [models/userModel.js].  "The store performs password hashing and its
    own confirm-match validation, failing ValidationError on mismatch or
    policy violation." *)
Definition validates (password passwordConfirm : option string) : bool :=
  match password, passwordConfirm with
  | Some p, Some c => passwordPolicy p && (c =? p)%string
  | _, _ => false
  end.

Definition ValidationError : Exn :=
  JsError (mkLibError "ValidationError" "User validation failed").

(** Modelled from the spec: the save hooks of [models/userModel.js].  "The
    store re-hashes and updates passwordChangedAt as part of persist":
    when the password was assigned, it is hashed, the confirmation is
    dropped and the time of the change is recorded. *)
Definition preSave (t : Z) (doc : UserDoc) : UserDoc :=
  if u_passwordModified doc then
    mkUserDoc (u_id doc) (u_name doc) (u_email doc)
      (option_map hashPassword (u_password doc)) None (Some t)
      (u_passwordResetToken doc) (u_passwordResetExpires doc) true
  else doc.

(** What a save writes over the stored document [stored]: the paths of
    [doc]; the password only when it was assigned. *)
Definition merge (doc stored : UserDoc) : UserDoc :=
  mkUserDoc (u_id stored) (u_name doc) (u_email doc)
    (if u_passwordModified doc then u_password doc else u_password stored)
    None (u_passwordChangedAt doc) (u_passwordResetToken doc)
    (u_passwordResetExpires doc) false.

Definition persist (doc : UserDoc) (us : list UserDoc) : list UserDoc :=
  map (fun stored =>
         if (u_id stored =? u_id doc)%string then merge doc stored
         else stored) us.

(** The document in memory once it is saved. *)
Definition saved (doc : UserDoc) : UserDoc :=
  mkUserDoc (u_id doc) (u_name doc) (u_email doc) (u_password doc) None
    (u_passwordChangedAt doc) (u_passwordResetToken doc)
    (u_passwordResetExpires doc) false.

(** [await user.save()] and [await user.save({ validateBeforeSave: false })];
    the result is [user] as the save leaves it. *)
Definition save (validateBeforeSave : bool) (user : UserDoc) : M UserDoc :=
  fun w =>
    if validateBeforeSave
       && negb (validates (u_password user) (u_passwordConfirm user))
    then (Throw ValidationError, w)
    else
      let doc := preSave (clock w) user in
      (Normal (saved doc), with_users (persist doc (users w)) w).

(** Modelled from the spec: [User.create(fields)], "create(fields) ->
    Account | fails ValidationError"; "the store is expected to enforce
    uniqueness as a hard constraint and surface a collision at create
    time too". *)
Definition create (fields : Registration) : M UserDoc :=
  fun w =>
    match reg_email fields with
    | Some e =>
        if validates (reg_password fields) (reg_passwordConfirm fields) then
          if existsb (fun d => (u_email d =? e)%string) (users w) then
            (Throw (JsError (mkLibError "MongoServerError"
                               "E11000 duplicate key error")), w)
          else
            let doc :=
              mkUserDoc (ObjectId (length (users w))) (reg_name fields) e
                (option_map hashPassword (reg_password fields)) None None
                None None false in
            (Normal doc, with_users (users w ++ [doc]) w)
        else (Throw ValidationError, w)
    | None => (Throw ValidationError, w)
    end.

(** Modelled from the spec: [user.changedPasswordAfter(iat)] of
    [models/userModel.js], "hasPasswordChangedSince(account, issuedAt) ->
    bool": "the account's passwordChangedAt is later than the token's
    issued-at".  [passwordChangedAt] is nullable; an account that never
    changed its password has none. *)
Definition changedPasswordAfter (user : UserDoc) (iat : Z) : bool :=
  match u_passwordChangedAt user with
  | Some changedAt => iat <? changedAt
  | None => false
  end.

(** [user.changedPasswordAfter(decoded.iat)] as [refreshToken] calls it.
    A decoded value without [iat] has no property [id] either, so no
    account is found for it and the call is not reached; the comparison
    with [undefined] is taken to be false. *)
Definition changedPasswordAfter_iat (user : UserDoc) (iat : option Z) : bool :=
  match iat with
  | Some issuedAt => changedPasswordAfter user issuedAt
  | None => false
  end.

(** Modelled from the spec: [user.createPasswordResetToken()] of
    [models/userModel.js], "generateResetToken(account) -> rawToken
    (mutates account's hash/expiry fields in memory; caller must
    persist)"; "only its one-way hash is persisted alongside an absolute
    expiry".  The result is the raw token and [user] as the call leaves
    it. *)
Definition createPasswordResetToken (user : UserDoc) : M (string * UserDoc) :=
  resetToken <- randomBytes 32 ;;
  t <- now ;;
  ret (resetToken,
       set_passwordResetExpires (Some (t + resetTokenLifetime))
         (set_passwordResetToken (Some (sha256_hex resetToken)) user)).

(** *** [utils/sendToken.js] *)

(** Modelled from the spec: "issueAccess(subjectId, ttl) -> signedToken,
    issueRefresh(subjectId, ttl) -> signedToken: sign {subjectId,
    issuedAt} with their respective secrets". *)
Definition SignInAccessToken (id expiresIn : string) : M string :=
  sign (SubjectClaims id) ACCESS_TOKEN expiresIn.

Definition SignInRefreshToken (id expiresIn : string) : M string :=
  sign (SubjectClaims id) REFRESH_TOKEN expiresIn.

(** The account as it is sent out: without its password. *)
Definition redact (user : UserDoc) : UserDoc := load false user.

(** Modelled from the spec: [sendToken(user, statusCode, res)], "issue
    Access+Refresh tokens, attach both as transport-level credentials,
    and return a success payload including at least the access token and
    the (redacted) account". *)
Definition sendToken (user : UserDoc) (statusCode : Z) : M Reply :=
  accessToken <- SignInAccessToken (u_id user) "5m" ;;
  refreshToken <- SignInRefreshToken (u_id user) "3d" ;;
  send statusCode
    [mkCookie "access_token" accessToken accessTokenOptions;
     mkCookie "refresh_token" refreshToken refreshTokenOptions]
    [("success", JBool true); ("user", JUser (redact user));
     ("accessToken", JString accessToken)].

(** *** The handlers *)

(** [createVerificationToken(user)] *)
Definition createVerificationToken (user : Registration) : M (string * string) :=
  verifyToken <- randomBytes 32 ;;
  token <- sign (VerificationClaims user verifyToken) VERIFY_EMAIL_SECRET
             VERIFY_EMAIL_EXPIRES_IN ;;
  ret (token, verifyToken).

(** [`${req.protocol}://${req.get("host")}<path><token>`] *)
Definition link (req : Request) (path token : string) : string :=
  protocol req ++ "://" ++ interpolate (host req) ++ path ++ token.

(** [new Email(user, data)] of [verifyAccount], sent with
    [activateRegistration()]. *)
Definition activation_mail (req : Request) (user : Registration)
    (verifyToken : string) : Mail :=
  mkMail ActivateRegistration (reg_email user) (reg_name user) verifyToken
    (link req "/api/v1/users/signup/" verifyToken).

(** [new Email(user, data)] of [forgotPassword], sent with
    [sendPasswordReset()]. *)
Definition reset_mail (req : Request) (user : UserDoc) (resetToken : string)
    : Mail :=
  mkMail PasswordReset (Some (u_email user)) (u_name user) resetToken
    (link req "/api/v1/users/reset-password/" resetToken).

Definition verifyAccount_handler (req : Request) : M Reply :=
  let name := b_name (body req) in
  let email := b_email (body req) in
  let password := b_password (body req) in
  let passwordConfirm := b_passwordConfirm (body req) in
  checkEmail <- findOne_email email false ;;
  if truthy checkEmail then next (AppError "Email Already exists" 400)
  else
    let user := mkRegistration name email password passwordConfirm in
    issuedToken <- createVerificationToken user ;;
    let '(token, verifyToken) := issuedToken in
    let resetURL := link req "/api/v1/users/signup/" verifyToken in
    deliver (mkMail ActivateRegistration (reg_email user) (reg_name user)
               verifyToken resetURL) ;;;
    send 201 []
      [("success", JBool true);
       ("message", JString ("Please check your email: "
                            ++ interpolate (reg_email user)
                            ++ " to activate your account!"));
       ("token", JString token)].

Definition verifyAccount := catchAsync verifyAccount_handler.

(** The bearer token of the [Authorization] header, [undefined] when the
    header is missing or does not start with [Bearer]. *)
Definition bearer (req : Request) : option string :=
  match headers_authorization req with
  | Some authorization =>
      if truthy authorization && startsWith authorization "Bearer"
      then index (split_space authorization) 1
      else None
  | None => None
  end.

Definition signUp_handler (req : Request) : M Reply :=
  let verification_token := bearer req in
  let verify_token := params_verify_token req in
  newUser <- verify verification_token VERIFY_EMAIL_SECRET ;;
  if loose_neq (v_verifyToken newUser) verify_token
  then next (AppError "Invalid token. Please try again" 401)
  else
    match v_user newUser with
    | None =>
        throw (TypeError "Cannot destructure property 'name' of 'newUser.user' as it is undefined.")
    | Some fields =>
        user <- create (mkRegistration (reg_name fields) (reg_email fields)
                          (reg_password fields) (reg_passwordConfirm fields)) ;;
        sendToken user 201
    end.

Definition signUp := catchAsync signUp_handler.

Definition login_handler (req : Request) : M Reply :=
  let email := b_email (body req) in
  let password := b_password (body req) in
  if negb (truthy email) || negb (truthy password)
  then next (AppError "Please provide email and password!" 400)
  else
    user <- findOne_email email true ;;
    rejected <- match user with
                | None => ret true
                | Some u =>
                    correct <- lift (correctPassword password (u_password u)) ;;
                    ret (negb correct)
                end ;;
    if rejected then next (AppError "Incorrect email or password" 401)
    else
      match user with
      | Some u => sendToken u 200
      | None => throw (TypeError "Cannot read properties of null (reading '_id')")
      end.

Definition login := catchAsync login_handler.

Definition logout_handler (req : Request) : M Reply :=
  try_catch
    (send 200
       [mkCookie "access_token" "" (mkCookieOptions (Some 1) false false);
        mkCookie "refresh_token" "" (mkCookieOptions (Some 1) false false)]
       [("success", JBool true);
        ("message", JString "Logged out successfully")])
    (fun err => next (AppError (message_of err) 400)).

Definition logout := catchAsync logout_handler.

Definition refreshToken_handler (req : Request) : M Reply :=
  let refresh_token := cookies_refresh_token req in
  decoded <- verify refresh_token REFRESH_TOKEN ;;
  let message := "Could not refresh token" in
  if negb (truthy decoded) then next (AppError message 400)
  else
    currentUser <- findById (v_id decoded) false ;;
    match currentUser with
    | None => next (AppError "Please login to access these resources!" 400)
    | Some currentUser =>
        if changedPasswordAfter_iat currentUser (v_iat decoded)
        then next (AppError "User recently changed password! Please log in again." 401)
        else
          accessToken <- SignInAccessToken (u_id currentUser) "5m" ;;
          refreshToken <- SignInRefreshToken (u_id currentUser) "3d" ;;
          (* [req.user = currentUser] does not show in the reply *)
          send 200
            [mkCookie "access_token" accessToken accessTokenOptions;
             mkCookie "refresh_token" refreshToken refreshTokenOptions]
            [("status", JString "success");
             ("accessToken", JString accessToken);
             ("refreshToken", JString refreshToken)]
    end.

Definition refreshToken := catchAsync refreshToken_handler.

(** [user?.password] *)
Definition optional_password (user : option UserDoc) : option string :=
  match user with Some u => u_password u | None => None end.

Definition updatePassword_handler (req : Request) : M Reply :=
  let oldPassword := b_oldPassword (body req) in
  let newPassword := b_newPassword (body req) in
  let passwordConfirm := b_passwordConfirm (body req) in
  if negb (truthy oldPassword) || negb (truthy newPassword)
  then next (AppError "Please provide your old and new passwords" 400)
  else if negb (truthy passwordConfirm)
  then next (AppError "Please confirm your password" 400)
  else
    match req_user req with
    | None => throw (TypeError "Cannot read properties of undefined (reading '_id')")
    | Some subject =>
        user <- findById (Some (u_id subject)) true ;;
        if strict_eq (optional_password user) "undefined"
        then next (AppError "Invalid user" 400)
        else
          match user with
          | None =>
              throw (TypeError "Cannot read properties of null (reading 'correctPassword')")
          | Some user =>
              correct <- lift (correctPassword oldPassword (u_password user)) ;;
              if negb correct
              then next (AppError "Your current password is wrong." 401)
              else
                let user := set_password newPassword user in
                let user := set_passwordConfirm passwordConfirm user in
                user <- save true user ;;
                send 200 [] [("success", JBool true); ("user", JUser user)]
          end
    end.

Definition updatePassword := catchAsync updatePassword_handler.

Definition forgotPassword_handler (req : Request) : M Reply :=
  let email := b_email (body req) in
  user <- findOne_email email false ;;
  match user with
  | None => next (AppError "There is no user with email address." 404)
  | Some user =>
      generated <- createPasswordResetToken user ;;
      let '(resetToken, user) := generated in
      user <- save false user ;;
      try_catch
        (let resetURL := link req "/api/v1/users/reset-password/" resetToken in
         console_log resetURL ;;;
         deliver (mkMail PasswordReset (Some (u_email user)) (u_name user)
                    resetToken resetURL) ;;;
         send 200 []
           [("status", JString "success");
            ("message", JString "Token sent to email!")])
        (fun err =>
           let user := set_passwordResetToken None user in
           let user := set_passwordResetExpires None user in
           save false user ;;;
           next (AppError "There was an error sending the email. Try again later!" 500))
  end.

Definition forgotPassword := catchAsync forgotPassword_handler.

Definition resetPassword_handler (req : Request) : M Reply :=
  let hashedToken := sha256_hex (params_token req) in
  user <- findOne_reset hashedToken ;;
  match user with
  | None => next (AppError "Token is invalid or has expired" 400)
  | Some user =>
      let user := set_password (b_password (body req)) user in
      let user := set_passwordConfirm (b_passwordConfirm (body req)) user in
      let user := set_passwordResetToken None user in
      let user := set_passwordResetExpires None user in
      save true user ;;;
      send 200 []
        [("status", JString "success");
         ("message", JString "Password reset successful. Please, log in with your new password.")]
  end.

Definition resetPassword := catchAsync resetPassword_handler.

(** The stored documents of the accounts other than [id], in the order
    of the store. *)
Definition others (id : string) (us : list UserDoc) : list UserDoc :=
  filter (fun d => negb (u_id d =? id)%string) us.

End AuthController.

(** ** A small instance

    A toy environment, store and requests on which the handlers run by
    computation. *)

Module Demo.

Definition ada : Registration :=
  mkRegistration (Some "Ada") (Some "ada@x.com") (Some "secret123")
    (Some "secret123").

Definition verify_table (token : option string) (secret : string) (t : Z)
    : LibError + Verified :=
  match token with
  | Some "signup.jwt" =>
      if (secret =? "verify-secret")%string
      then inr (VObject (mkDecoded (Some ada) (Some "c0ffee") None 100))
      else inl (mkLibError "JsonWebTokenError" "invalid signature")
  | Some "refresh.jwt" =>
      if (secret =? "refresh-secret")%string
      then inr (VObject (mkDecoded None None (Some "u1") 100))
      else inl (mkLibError "JsonWebTokenError" "invalid signature")
  | Some "false.jwt" =>
      if (secret =? "refresh-secret")%string
      then inr (VBoolean false)
      else inl (mkLibError "JsonWebTokenError" "invalid signature")
  | Some _ => inl (mkLibError "JsonWebTokenError" "jwt malformed")
  | None => inl (mkLibError "JsonWebTokenError" "jwt must be provided")
  end.

Definition sign_table (claims : Claims) (secret expiresIn : string) (t : Z)
    : string :=
  match claims with
  | VerificationClaims _ _ => "signup.jwt"
  | SubjectClaims _ =>
      if (secret =? "refresh-secret")%string then "refresh.jwt"
      else "access.jwt"
  end.

Definition compare_hash (candidate stored : option string) : LibError + bool :=
  match candidate, stored with
  | Some c, Some h => inr (h =? "bcrypt:" ++ c)%string
  | _, _ => inl (mkLibError "Error" "data and hash arguments required")
  end.

(** A transport that delivers activation mails and is down for password
    resets. *)
Definition flaky_transport (mail : Mail) : option LibError :=
  match m_kind mail with
  | ActivateRegistration => None
  | PasswordReset => Some (mkLibError "Error" "connect ECONNREFUSED")
  end.

Definition env : Env := {|
  VERIFY_EMAIL_SECRET := "verify-secret";
  VERIFY_EMAIL_EXPIRES_IN := "10m";
  ACCESS_TOKEN := "access-secret";
  REFRESH_TOKEN := "refresh-secret";
  jwt_sign := sign_table;
  jwt_verify := verify_table;
  randomBytes_hex := fun _ _ => "c0ffee";
  sha256_hex := fun s => "sha256:" ++ s;
  transport := flaky_transport;
  correctPassword := compare_hash;
  hashPassword := fun p => "bcrypt:" ++ p;
  passwordPolicy := fun p => (8 <=? String.length p)%nat;
  resetTokenLifetime := 600000;
  ObjectId := fun n => if (n =? 0)%nat then "u0" else "u9";
  accessTokenOptions := mkCookieOptions (Some 300000) true false;
  refreshTokenOptions := mkCookieOptions (Some 259200000) true false
|}.

Definition grace : UserDoc :=
  mkUserDoc "u1" (Some "Grace") "grace@x.com" (Some "bcrypt:hopper1906") None
    None None None false.

(** Grace after she changed her password at time 200. *)
Definition grace_changed : UserDoc :=
  mkUserDoc "u1" (Some "Grace") "grace@x.com" (Some "bcrypt:hopper1906") None
    (Some 200) None None false.



(** An account whose stored document has no password. *)
Definition ghost : UserDoc :=
  mkUserDoc "u2" (Some "Ghost") "ghost@x.com" None None None None None false.

Definition world (us : list UserDoc) : World := mkWorld us [] [] [] 0 1000.

Definition no_body : Body := mkBody None None None None None None.

Definition request (b : Body) : Request :=
  mkRequest b None "" "" None "https" (Some "tours.example") None.

(** A signup link opened with the nonce [deadbeef], while the token of the
    header carries [c0ffee]. *)
Definition signup_request : Request :=
  mkRequest no_body (Some "Bearer signup.jwt") "deadbeef" "" None "https"
    (Some "tours.example") None.

Definition register_grace : Request :=
  request (mkBody (Some "Grace") (Some "grace@x.com") (Some "hopper1906")
             (Some "hopper1906") None None).

Definition login_grace_wrong : Request :=
  request (mkBody None (Some "grace@x.com") (Some "wrong-password") None None
             None).

Definition refresh_request : Request :=
  mkRequest no_body None "" "" (Some "refresh.jwt") "https"
    (Some "tours.example") None.

Definition update_request (subject : UserDoc) : Request :=
  mkRequest (mkBody None None None (Some "lovelace1815") (Some "hopper1906")
               (Some "lovelace1815"))
    None "" "" None "https" (Some "tours.example") (Some subject).


Definition forgot_request : Request :=
  request (mkBody None (Some "grace@x.com") None None None None).

Definition reset_request : Request :=
  mkRequest (mkBody None None (Some "lovelace1815") (Some "lovelace1815") None
               None)
    None "" "c0ffee" None "https" (Some "tours.example") None.


(** The environment with a transport that delivers every mail. *)
Definition env_delivering : Env := {|
  VERIFY_EMAIL_SECRET := "verify-secret";
  VERIFY_EMAIL_EXPIRES_IN := "10m";
  ACCESS_TOKEN := "access-secret";
  REFRESH_TOKEN := "refresh-secret";
  jwt_sign := sign_table;
  jwt_verify := verify_table;
  randomBytes_hex := fun _ _ => "c0ffee";
  sha256_hex := fun s => "sha256:" ++ s;
  transport := fun _ => None;
  correctPassword := compare_hash;
  hashPassword := fun p => "bcrypt:" ++ p;
  passwordPolicy := fun p => (8 <=? String.length p)%nat;
  resetTokenLifetime := 600000;
  ObjectId := fun n => if (n =? 0)%nat then "u0" else "u9";
  accessTokenOptions := mkCookieOptions (Some 300000) true false;
  refreshTokenOptions := mkCookieOptions (Some 259200000) true false
|}.

(** The environment with a transport that is down for every mail. *)
Definition env_offline : Env := {|
  VERIFY_EMAIL_SECRET := "verify-secret";
  VERIFY_EMAIL_EXPIRES_IN := "10m";
  ACCESS_TOKEN := "access-secret";
  REFRESH_TOKEN := "refresh-secret";
  jwt_sign := sign_table;
  jwt_verify := verify_table;
  randomBytes_hex := fun _ _ => "c0ffee";
  sha256_hex := fun s => "sha256:" ++ s;
  transport := fun _ => Some (mkLibError "Error" "connect ECONNREFUSED");
  correctPassword := compare_hash;
  hashPassword := fun p => "bcrypt:" ++ p;
  passwordPolicy := fun p => (8 <=? String.length p)%nat;
  resetTokenLifetime := 600000;
  ObjectId := fun n => if (n =? 0)%nat then "u0" else "u9";
  accessTokenOptions := mkCookieOptions (Some 300000) true false;
  refreshTokenOptions := mkCookieOptions (Some 259200000) true false
|}.

(** Grace whose reset token for [c0ffee] expires at 1000, the time of the
    clock of [world]. *)
Definition grace_expiring : UserDoc :=
  mkUserDoc "u1" (Some "Grace") "grace@x.com" (Some "bcrypt:hopper1906") None
    None (Some "sha256:c0ffee") (Some 1000) false.

(** An account whose stored password is the string [undefined]. *)
Definition nobody : UserDoc :=
  mkUserDoc "u3" (Some "Nobody") "nobody@x.com" (Some "undefined") None None
    None None false.

Definition plain_request (authorization : option string) : Request :=
  mkRequest no_body authorization "" "" None "https" (Some "tours.example")
    None.

Definition login_without_password : Request :=
  request (mkBody None (Some "grace@x.com") (Some "") None None None).

(** A signup link opened with a token that was not signed by the
    application. *)
Definition forged_signup_request : Request :=
  mkRequest no_body (Some "Bearer forged.jwt") "c0ffee" "" None "https"
    (Some "tours.example") None.

(** The old password given is not the password of Grace. *)
Definition update_request_wrong (subject : UserDoc) : Request :=
  mkRequest (mkBody None None None (Some "lovelace1815") (Some "not-hopper")
               (Some "lovelace1815"))
    None "" "" None "https" (Some "tours.example") (Some subject).


End Demo.

(** ** Properties of the controller *)

Section Properties.

Context {env : Env}.

(** *** Lists and the store *)

Lemma find_of_In {A} (f : A -> bool) (l : list A) (x : A) :
  In x l -> f x = true -> exists y, find f l = Some y.
Proof.
  induction l as [|a l IH]; simpl; [tauto|].
  intros [->|Hin] Hf.
  - rewrite Hf. eauto.
  - destruct (f a); eauto.
Qed.

Lemma find_none_iff {A} (f : A -> bool) (l : list A) :
  find f l = None <-> forall x, In x l -> f x = false.
Proof.
  split; [apply find_none|].
  induction l as [|a l IH]; simpl; intros H; [reflexivity|].
  rewrite (H a (or_introl eq_refl)). apply IH. intros x Hx. apply H. now right.
Qed.

Lemma In_persist doc us d :
  In d (persist doc us) ->
  (exists stored, In stored us /\ u_id stored = u_id doc /\ d = merge doc stored)
  \/ (In d us /\ u_id d <> u_id doc).
Proof.
  unfold persist. rewrite in_map_iff. intros (stored & Hd & Hin).
  destruct (String.eqb_spec (u_id stored) (u_id doc)) as [Heq|Hne]; subst d.
  - left. eauto.
  - right. auto.
Qed.

Lemma persist_persist doc1 doc2 us :
  u_id doc1 = u_id doc2 ->
  u_passwordModified doc2 = false ->
  persist doc2 (persist doc1 us)
  = map (fun stored =>
           if (u_id stored =? u_id doc2)%string
           then merge doc2 (merge doc1 stored) else stored) us.
Proof.
  intros Hid Hmod. unfold persist. rewrite map_map. apply map_ext. intros s.
  rewrite Hid.
  destruct (String.eqb_spec (u_id s) (u_id doc2)) as [Heq|Hne].
  - simpl. rewrite Heq, String.eqb_refl. reflexivity.
  - destruct (String.eqb_spec (u_id s) (u_id doc2)); [contradiction|reflexivity].
Qed.

(** *** Activation *)

(** C8.  The activation handler persists nothing: whatever the request and
    the state of the world, the [users] collection after [verifyAccount]
    is the collection before. *)
Theorem verifyAccount_persists_nothing (req : Request) (w : World) :
  users (snd (verifyAccount req w)) = users w.
Proof.
  unfold verifyAccount, catchAsync, verifyAccount_handler, bind, findOne_email.
  destruct (truthy _); [reflexivity|].
  unfold createVerificationToken, bind, randomBytes, sign, ret, deliver; simpl.
  destruct (transport _); reflexivity.
Qed.

(** C6.  A registration whose email is the email of a stored account is
    answered with [AppError("Email Already exists", 400)], and the world is
    left as it was: no token was signed ([issued]), no randomness drawn
    ([entropy]) and no mail handed to the transport ([outbox]). *)
Theorem verifyAccount_duplicate_email (req : Request) (w : World)
    (email : string) (account : UserDoc) :
  b_email (body req) = Some email ->
  In account (users w) ->
  u_email account = email ->
  verifyAccount req w = (Next (AppError "Email Already exists" 400), w).
Proof.
  intros Hbody Hin Hemail.
  unfold verifyAccount, catchAsync, verifyAccount_handler, bind, findOne_email.
  rewrite Hbody.
  destruct (find_of_In (fun d => (u_email d =? email)%string) _ _ Hin) as [y Hy].
  { apply String.eqb_eq, Hemail. }
  rewrite Hy. reflexivity.
Qed.

(** *** Completing the signup *)

(** C1.  When the verification token verifies and the nonce it carries is
    not the nonce of the path, [signUp] answers with
    [AppError("Invalid token. Please try again", 401)] and leaves the world
    as it was: [User.create] is not reached and no account is stored. *)
Theorem signUp_nonce_mismatch (req : Request) (w : World) (newUser : Verified) :
  jwt_verify (bearer req) VERIFY_EMAIL_SECRET (clock w) = inr newUser ->
  v_verifyToken newUser <> Some (params_verify_token req) ->
  signUp req w = (Next (AppError "Invalid token. Please try again" 401), w).
Proof.
  intros Hverify Hnonce.
  unfold signUp, catchAsync, signUp_handler, bind, verify.
  rewrite Hverify. simpl.
  destruct (v_verifyToken newUser) as [nonce|]; simpl; [|reflexivity].
  destruct (String.eqb_spec nonce (params_verify_token req)) as [->|_];
    [contradiction|reflexivity].
Qed.

(** X4.  A verification token that does not verify (a missing or
    malformed header included): [signUp] builds no [AppError], the error of
    [jwt.verify] goes to [next] as it is, and nothing changes. *)
Lemma signUp_unverifiable_token (req : Request) (w : World) (e : LibError) :
  jwt_verify (bearer req) VERIFY_EMAIL_SECRET (clock w) = inl e ->
  signUp req w = (Next (JsError e), w).
Proof.
  intros Hverify.
  unfold signUp, catchAsync, signUp_handler, bind, verify.
  rewrite Hverify. reflexivity.
Qed.

(** *** Login *)

(** C4.  The reply of [login] on a store that has no account with the
    email is the reply on a store that has one for which the password
    comparison resolves to [false]; when email and password are both given
    it is [AppError("Incorrect email or password", 401)] in both cases, and
    neither run changes the world. *)
Theorem login_no_user_existence_leak (req : Request) (w1 w2 : World)
    (account : UserDoc) :
  fst (findOne_email (b_email (body req)) true w1) = Normal None ->
  fst (findOne_email (b_email (body req)) true w2) = Normal (Some account) ->
  correctPassword (b_password (body req)) (u_password account) = inr false ->
  fst (login req w1) = fst (login req w2)
  /\ snd (login req w1) = w1 /\ snd (login req w2) = w2
  /\ (truthy (b_email (body req)) = true ->
      truthy (b_password (body req)) = true ->
      fst (login req w1) = Next (AppError "Incorrect email or password" 401)).
Proof.
  unfold findOne_email. simpl. intros H1 H2 Hcmp.
  injection H1 as H1. injection H2 as H2.
  unfold login, catchAsync, login_handler, bind, findOne_email.
  destruct (negb (truthy (b_email (body req))) || negb (truthy (b_password (body req))))
    eqn:Hmissing.
  - simpl. repeat split.
    apply orb_true_iff in Hmissing. intros He Hp. rewrite He, Hp in Hmissing.
    simpl in Hmissing. intuition discriminate.
  - rewrite H1, H2, Hcmp. simpl. repeat split.
Qed.

(** *** Refreshing the session *)


(** C3.  For a refresh token that verifies and whose subject is a stored
    account: when the account's [passwordChangedAt] is later than the
    token's [iat], [refreshToken] answers with [AppError(..., 401)] and
    changes nothing; when the account has no [passwordChangedAt] or one
    that is not later than [iat], it answers 200 with a new access token
    and a new refresh token for the account, in the cookies and in the
    body. *)
Theorem refreshToken_freshness (req : Request) (w : World) (decoded : Decoded)
    (account : UserDoc) :
  jwt_verify (cookies_refresh_token req) REFRESH_TOKEN (clock w)
  = inr (VObject decoded) ->
  fst (findById (d_id decoded) false w) = Normal (Some account) ->
  (forall changedAt,
      u_passwordChangedAt account = Some changedAt ->
      d_iat decoded < changedAt ->
      refreshToken req w
      = (Next (AppError "User recently changed password! Please log in again." 401), w))
  /\ ((forall changedAt,
          u_passwordChangedAt account = Some changedAt ->
          changedAt <= d_iat decoded) ->
      let accessToken :=
        jwt_sign (SubjectClaims (u_id account)) ACCESS_TOKEN "5m" (clock w) in
      let refreshToken' :=
        jwt_sign (SubjectClaims (u_id account)) REFRESH_TOKEN "3d" (clock w) in
      refreshToken req w
      = (Sent (mkResponse 200
                 [mkCookie "access_token" accessToken accessTokenOptions;
                  mkCookie "refresh_token" refreshToken' refreshTokenOptions]
                 [("status", JString "success");
                  ("accessToken", JString accessToken);
                  ("refreshToken", JString refreshToken')]),
         with_issued (refreshToken' :: accessToken :: issued w) w)).
Proof.
  intros Hverify Hfind. simpl in Hfind. injection Hfind as Hfind.
  split.
  - intros changedAt Hchanged Hlater.
    unfold refreshToken, catchAsync, refreshToken_handler, bind, verify, findById.
    rewrite Hverify. simpl. rewrite Hfind.
    unfold changedPasswordAfter. rewrite Hchanged.
    apply Z.ltb_lt in Hlater. rewrite Hlater. reflexivity.
  - intros Hfresh.
    unfold refreshToken, catchAsync, refreshToken_handler, bind, verify, findById.
    rewrite Hverify. simpl. rewrite Hfind.
    replace (changedPasswordAfter account (d_iat decoded)) with false.
    + reflexivity.
    + unfold changedPasswordAfter.
      destruct (u_passwordChangedAt account) as [changedAt|]; [|reflexivity].
      symmetry. apply Z.ltb_ge. apply Hfresh. reflexivity.
Qed.


(** *** Updating the password *)

(** C9.  When the request carries the three passwords and [findById] finds
    no account for the authenticated subject, the guard on
    [user?.password] does not fire and [updatePassword] ends in the
    [TypeError] of calling [correctPassword] on [null], which goes to
    [next] as it is: no [AppError] is built, and the world is unchanged. *)
Theorem updatePassword_missing_account_throws (req : Request) (w : World)
    (subject : UserDoc) :
  truthy (b_oldPassword (body req)) = true ->
  truthy (b_newPassword (body req)) = true ->
  truthy (b_passwordConfirm (body req)) = true ->
  req_user req = Some subject ->
  fst (findById (Some (u_id subject)) true w) = Normal None ->
  updatePassword req w
  = (Next (TypeError "Cannot read properties of null (reading 'correctPassword')"), w).
Proof.
  intros Hold Hnew Hconfirm Hsubject Hfind.
  simpl in Hfind. injection Hfind as Hfind.
  unfold updatePassword, catchAsync, updatePassword_handler, bind, findById.
  rewrite Hold, Hnew, Hconfirm, Hsubject. simpl. rewrite Hfind. reflexivity.
Qed.

(** C7 (the behaviour of the code).  When the request carries the three
    passwords and the account of the subject is stored without a password,
    [updatePassword] does not answer with [AppError("Invalid user", 400)]:
    the guard compares the absent password with the string ["undefined"],
    so the handler goes on to [correctPassword] with the absent password,
    and when that call rejects, its error is what [next] receives. *)
Theorem updatePassword_absent_password_not_rejected (req : Request) (w : World)
    (subject user : UserDoc) :
  truthy (b_oldPassword (body req)) = true ->
  truthy (b_newPassword (body req)) = true ->
  truthy (b_passwordConfirm (body req)) = true ->
  req_user req = Some subject ->
  fst (findById (Some (u_id subject)) true w) = Normal (Some user) ->
  u_password user = None ->
  fst (updatePassword req w) <> Next (AppError "Invalid user" 400)
  /\ (forall e,
         correctPassword (b_oldPassword (body req)) None = inl e ->
         updatePassword req w = (Next (JsError e), w)).
Proof.
  intros Hold Hnew Hconfirm Hsubject Hfind Hpassword.
  simpl in Hfind. injection Hfind as Hfind.
  unfold updatePassword, catchAsync, updatePassword_handler, bind, findById.
  rewrite Hold, Hnew, Hconfirm, Hsubject. simpl. rewrite Hfind.
  unfold optional_password. rewrite Hpassword. simpl.
  split.
  - destruct (correctPassword _ _) as [e|[|]]; simpl; try discriminate.
    unfold save. destruct (_ && _); simpl; discriminate.
  - intros e He. rewrite He. reflexivity.
Qed.

(** *** Forgotten password *)

(** C5.  When the account is found and the transport fails on the reset
    mail, [forgotPassword] answers with [AppError(..., 500)]; the store
    ends as the store of the start with the account saved with
    [passwordResetToken] and [passwordResetExpires] cleared, so no stored
    document of the account holds a reset token, the other documents are
    the ones of the start, and nothing was added to the outbox. *)
Theorem forgotPassword_delivery_failure (req : Request) (w : World)
    (user : UserDoc) (err : LibError) :
  fst (findOne_email (b_email (body req)) false w) = Normal (Some user) ->
  transport (reset_mail req user (randomBytes_hex 32 (entropy w))) = Some err ->
  exists w',
    forgotPassword req w
    = (Next (AppError "There was an error sending the email. Try again later!" 500), w')
    /\ users w'
       = persist (set_passwordResetExpires None (set_passwordResetToken None user))
           (users w)
    /\ (forall d, In d (users w') -> u_id d = u_id user ->
                  u_passwordResetToken d = None /\ u_passwordResetExpires d = None)
    /\ (forall d, In d (users w') -> u_id d <> u_id user -> In d (users w))
    /\ outbox w' = outbox w.
Proof.
  intros Hfind Hfail.
  assert (Hloaded : u_passwordModified user = false).
  { simpl in Hfind. injection Hfind as Hfind.
    destruct (b_email (body req)); [|discriminate].
    destruct (find _ (users w)); [|discriminate].
    injection Hfind as <-. reflexivity. }
  simpl in Hfind. injection Hfind as Hfind.
  unfold forgotPassword, catchAsync, forgotPassword_handler, bind, findOne_email.
  rewrite Hfind.
  unfold createPasswordResetToken, bind, randomBytes, now, ret, save, preSave.
  simpl. rewrite Hloaded. simpl.
  unfold try_catch, bind, console_log, deliver. simpl.
  unfold reset_mail in Hfail.
  rewrite Hfail. simpl.
  eexists. split; [reflexivity|]. simpl.
  assert (Hstore :
    persist (set_passwordResetExpires None (set_passwordResetToken None
               (saved (set_passwordResetExpires (Some (clock w + resetTokenLifetime))
                  (set_passwordResetToken
                     (Some (sha256_hex (randomBytes_hex 32 (entropy w)))) user)))))
      (persist (set_passwordResetExpires (Some (clock w + resetTokenLifetime))
                  (set_passwordResetToken
                     (Some (sha256_hex (randomBytes_hex 32 (entropy w)))) user))
         (users w))
    = persist (set_passwordResetExpires None (set_passwordResetToken None user))
        (users w)).
  { rewrite persist_persist by reflexivity.
    unfold persist. apply map_ext. intros stored. simpl.
    destruct (u_id stored =? u_id user)%string; [|reflexivity].
    unfold merge. simpl. rewrite Hloaded. reflexivity. }
  rewrite Hstore.
  split; [reflexivity|].
  split; [|split; [|reflexivity]].
  - intros d Hd Hid. apply In_persist in Hd.
    destruct Hd as [(stored & _ & _ & ->)|[_ Hne]]; [split; reflexivity|].
    contradiction.
  - intros d Hd Hid. apply In_persist in Hd.
    destruct Hd as [(stored & _ & Hsame & ->)|[Hin _]]; [|exact Hin].
    simpl in Hid. simpl in Hsame. contradiction.
Qed.


(** *** Resetting the password *)

Lemma reset_matches_token hashedToken t d :
  reset_matches hashedToken t d = true ->
  u_passwordResetToken d = Some hashedToken.
Proof.
  unfold reset_matches.
  destruct (u_passwordResetToken d) as [h|]; [|discriminate].
  destruct (u_passwordResetExpires d); [|discriminate].
  intros H. apply andb_true_iff in H. destruct H as [H _].
  apply String.eqb_eq in H. now subst.
Qed.

Lemma reset_matches_cleared hashedToken t d :
  u_passwordResetToken d <> Some hashedToken ->
  reset_matches hashedToken t d = false.
Proof.
  intros H. destruct (reset_matches hashedToken t d) eqn:E; [|reflexivity].
  apply reset_matches_token in E. contradiction.
Qed.



End Properties.

(** ** Further properties of the handlers *)

Section Behaviour.

Context {env : Env}.

(** *** The bearer token of the header *)

Lemma split_space_no_space (s : string) :
  no_space s = true -> split_space s = [s].
Proof.
  induction s as [|c s IH]; simpl; [reflexivity|].
  intros H. apply andb_true_iff in H. destruct H as [Hc Hs].
  destruct (Ascii.eqb c " "); [discriminate|].
  rewrite (IH Hs). reflexivity.
Qed.

Lemma split_space_app (a b : string) :
  no_space a = true ->
  split_space (a ++ String " " b) = a :: split_space b.
Proof.
  induction a as [|c a IH]; simpl; [reflexivity|].
  intros H. apply andb_true_iff in H. destruct H as [Hc Ha].
  destruct (Ascii.eqb c " "); [discriminate|].
  rewrite (IH Ha). reflexivity.
Qed.

Lemma prefix_app (p s t : string) :
  String.prefix p s = true -> String.prefix p (s ++ t) = true.
Proof.
  revert s. induction p as [|c p IH]; intros s.
  - intros _. destruct (s ++ t)%string; reflexivity.
  - destruct s as [|d s]; simpl; [discriminate|].
    destruct (Ascii.ascii_dec c d); [apply IH|discriminate].
Qed.

Lemma prefix_nonempty (p s : string) :
  String.prefix p s = true -> p <> ""%string -> (s =? "")%string = false.
Proof.
  destruct p; [congruence|]. destruct s; [discriminate|reflexivity].
Qed.

(** X1.  The token [signUp] verifies is the second piece of the
    [Authorization] header: for a header made of a scheme that starts with
    [Bearer], one space and a token, neither with a space in it, it is the
    token.  The scheme is only tested by its prefix. *)
Theorem bearer_of_scheme_and_token (req : Request) (scheme token : string) :
  headers_authorization req = Some (scheme ++ " " ++ token) ->
  startsWith scheme "Bearer" = true ->
  no_space scheme = true ->
  no_space token = true ->
  bearer req = Some token.
Proof.
  intros Hheader Hscheme Hs Ht. unfold bearer.
  simpl in Hheader. rewrite Hheader.
  unfold startsWith in *.
  rewrite (prefix_app _ _ (String " " token) Hscheme).
  unfold truthy, string_ToBoolean.
  rewrite (prefix_nonempty "Bearer" _ (prefix_app _ _ (String " " token) Hscheme))
    by discriminate.
  simpl. rewrite (split_space_app _ _ Hs), (split_space_no_space _ Ht).
  reflexivity.
Qed.

(** X2.  Without a header, or with a header that has no space in it
    ([Bearer] alone, or the token glued to the scheme), the token [signUp]
    verifies is [undefined]. *)
Theorem bearer_without_space (req : Request) :
  (forall header, headers_authorization req = Some header ->
                  no_space header = true) ->
  bearer req = None.
Proof.
  intros H. unfold bearer.
  destruct (headers_authorization req) as [header|]; [|reflexivity].
  rewrite (split_space_no_space _ (H header eq_refl)).
  destruct (_ && _); reflexivity.
Qed.

(** *** Completing the signup *)

(** X3.  [signUp] answers with [AppError("Invalid token. Please try
    again", 401)] exactly when the token verifies and its nonce is not the
    nonce of the path: a token that does not verify, a matching nonce and
    a failing [User.create] never give this error. *)
Theorem signUp_invalid_token_iff (req : Request) (w : World) :
  fst (signUp req w) = Next (AppError "Invalid token. Please try again" 401)
  <-> exists newUser,
        jwt_verify (bearer req) VERIFY_EMAIL_SECRET (clock w) = inr newUser
        /\ v_verifyToken newUser <> Some (params_verify_token req).
Proof.
  unfold signUp, catchAsync, signUp_handler, bind, verify.
  destruct (jwt_verify _ _ _) as [e|newUser] eqn:Hverify; simpl.
  - split; [discriminate|]. intros (? & H & _). discriminate.
  - unfold loose_neq.
    destruct (v_verifyToken newUser) as [nonce|] eqn:Hnonce; simpl.
    + destruct (String.eqb_spec nonce (params_verify_token req)) as [->|Hne];
        simpl.
      * split.
        -- destruct (v_user newUser) as [fields|]; simpl; [|discriminate].
           unfold create. simpl.
           destruct (reg_email fields); simpl; [|discriminate].
           destruct (validates _ _); simpl; [|discriminate].
           destruct (existsb _ _); simpl; discriminate.
        -- intros (d & Hd & Hneq). injection Hd as <-. rewrite Hnonce in Hneq.
           contradiction.
      * split; [|reflexivity]. intros _. exists newUser.
        rewrite Hnonce. split; [reflexivity|congruence].
    + split; [|reflexivity]. intros _. exists newUser. rewrite Hnonce.
      split; [reflexivity|discriminate].
Qed.

(** *** Login *)

(** X5.  Without an email or without a password, the empty string
    included, [login] answers with
    [AppError("Please provide email and password!", 400)] and changes
    nothing, whether the store has the account or not. *)
Theorem login_missing_credentials (req : Request) (w : World) :
  truthy (b_email (body req)) = false \/ truthy (b_password (body req)) = false ->
  login req w = (Next (AppError "Please provide email and password!" 400), w).
Proof.
  intros H. unfold login, catchAsync, login_handler.
  replace (negb (truthy (b_email (body req))) || negb (truthy (b_password (body req))))
    with true; [reflexivity|].
  symmetry. apply orb_true_iff. destruct H as [-> | ->]; auto.
Qed.

(** X6.  [login] answers with [AppError("Incorrect email or password",
    401)] exactly when email and password are given and either no account
    has the email or the comparison of the passwords resolves to [false];
    in particular never when the comparison resolves to [true]. *)
Theorem login_invalid_credentials_iff (req : Request) (w : World) :
  fst (login req w) = Next (AppError "Incorrect email or password" 401)
  <-> truthy (b_email (body req)) = true
      /\ truthy (b_password (body req)) = true
      /\ (fst (findOne_email (b_email (body req)) true w) = Normal None
          \/ exists account,
               fst (findOne_email (b_email (body req)) true w)
               = Normal (Some account)
               /\ correctPassword (b_password (body req)) (u_password account)
                  = inr false).
Proof.
  unfold login, catchAsync, login_handler, bind.
  destruct (truthy (b_email (body req))); simpl;
    [|split; [discriminate|intros [H _]; discriminate]].
  destruct (truthy (b_password (body req))); simpl;
    [|split; [discriminate|intros (_ & H & _); discriminate]].
  destruct (match b_email (body req) with Some _ => _ | None => _ end)
    as [account|] eqn:Hfind; simpl.
  - destruct (correctPassword _ _) as [e|[|]] eqn:Hcmp; simpl.
    + split; [discriminate|].
      intros (_ & _ & [H|(a & Ha & Hf)]); [discriminate|].
      injection Ha as <-. congruence.
    + split; [discriminate|].
      intros (_ & _ & [H|(a & Ha & Hf)]); [discriminate|].
      injection Ha as <-. congruence.
    + split; [|reflexivity]. intros _. repeat split. right.
      exists account. auto.
  - split; [|reflexivity]. intros _. repeat split. left. reflexivity.
Qed.

(** X9.  A [login] that ends in [next] has changed nothing: no token was
    signed for a request that was turned down. *)
Theorem login_rejected_unchanged (req : Request) (w : World) (e : Exn) :
  fst (login req w) = Next e -> snd (login req w) = w.
Proof.
  unfold login, catchAsync, login_handler, bind, findOne_email.
  destruct (negb _ || negb _); simpl; [reflexivity|].
  destruct (match b_email (body req) with Some _ => _ | None => _ end);
    simpl; [|reflexivity].
  destruct (correctPassword _ _) as [err|[|]]; simpl;
    [reflexivity|discriminate|reflexivity].
Qed.

(** *** Activation *)

(** X7.  When [verifyAccount] answers, the answer is 201 with the token it
    signed over the registration fields and a fresh nonce; the one mail it
    sent carries that nonce, in the link too, and not the token; nothing
    is stored. *)
Theorem verifyAccount_binds_nonce (req : Request) (w w' : World)
    (resp : Response) :
  verifyAccount req w = (Sent resp, w') ->
  let user := mkRegistration (b_name (body req)) (b_email (body req))
                (b_password (body req)) (b_passwordConfirm (body req)) in
  let verifyToken := randomBytes_hex 32 (entropy w) in
  let token := jwt_sign (VerificationClaims user verifyToken)
                 VERIFY_EMAIL_SECRET VERIFY_EMAIL_EXPIRES_IN (clock w) in
  resp = mkResponse 201 []
           [("success", JBool true);
            ("message", JString ("Please check your email: "
                                 ++ interpolate (b_email (body req))
                                 ++ " to activate your account!"));
            ("token", JString token)]
  /\ outbox w'
     = mkMail ActivateRegistration (b_email (body req)) (b_name (body req))
         verifyToken
         (protocol req ++ "://" ++ interpolate (host req)
          ++ "/api/v1/users/signup/" ++ verifyToken)
       :: outbox w
  /\ issued w' = token :: issued w
  /\ users w' = users w.
Proof.
  unfold verifyAccount, catchAsync, verifyAccount_handler, bind, findOne_email.
  destruct (truthy _); [discriminate|].
  unfold createVerificationToken, bind, randomBytes, sign, ret, deliver; simpl.
  destruct (transport _); simpl; [discriminate|].
  intros H. injection H as <- <-. repeat split.
Qed.

(** X8.  When no account has the email and the transport fails on the
    activation mail, [verifyAccount] passes the error of the transport to
    [next]: the token was signed but is not returned, no mail is recorded
    and nothing is stored. *)
Theorem verifyAccount_delivery_failure (req : Request) (w : World)
    (err : LibError) :
  fst (findOne_email (b_email (body req)) false w) = Normal None ->
  let user := mkRegistration (b_name (body req)) (b_email (body req))
                (b_password (body req)) (b_passwordConfirm (body req)) in
  let verifyToken := randomBytes_hex 32 (entropy w) in
  let token := jwt_sign (VerificationClaims user verifyToken)
                 VERIFY_EMAIL_SECRET VERIFY_EMAIL_EXPIRES_IN (clock w) in
  transport (activation_mail req user verifyToken) = Some err ->
  verifyAccount req w
  = (Next (JsError err),
     with_issued (token :: issued w) (with_entropy (S (entropy w)) w)).
Proof.
  intros Hfind user verifyToken token Hfail.
  simpl in Hfind. injection Hfind as Hfind.
  unfold verifyAccount, catchAsync, verifyAccount_handler, bind, findOne_email.
  rewrite Hfind. simpl.
  unfold createVerificationToken, bind, randomBytes, sign, ret, deliver; simpl.
  subst user verifyToken. unfold activation_mail in Hfail. simpl in Hfail.
  rewrite Hfail. reflexivity.
Qed.

(** *** Refreshing the session *)

(** X10.  When the refresh token does not verify (a missing cookie
    included), [refreshToken] passes the error of [jwt.verify] to [next]
    as it is and changes nothing. *)
Theorem refreshToken_unverifiable_token (req : Request) (w : World)
    (e : LibError) :
  jwt_verify (cookies_refresh_token req) REFRESH_TOKEN (clock w) = inl e ->
  refreshToken req w = (Next (JsError e), w).
Proof.
  intros Hverify.
  unfold refreshToken, catchAsync, refreshToken_handler, bind, verify.
  rewrite Hverify. reflexivity.
Qed.

(** X11.  When the refresh token verifies to a truthy value and no stored
    account has the [id] it carries, or it carries none, [refreshToken]
    answers with [AppError("Please login to access these resources!", 400)]
    and changes nothing. *)
Theorem refreshToken_unknown_subject (req : Request) (w : World)
    (decoded : Verified) :
  jwt_verify (cookies_refresh_token req) REFRESH_TOKEN (clock w) = inr decoded ->
  truthy decoded = true ->
  (forall id account,
      v_id decoded = Some id -> In account (users w) -> u_id account <> id) ->
  refreshToken req w
  = (Next (AppError "Please login to access these resources!" 400), w).
Proof.
  intros Hverify Htruthy Hnone.
  unfold refreshToken, catchAsync, refreshToken_handler, bind, verify, findById.
  rewrite Hverify. simpl. rewrite Htruthy. simpl.
  destruct (v_id decoded) as [id|]; simpl; [|reflexivity].
  replace (find _ (users w)) with (@None UserDoc); [reflexivity|].
  symmetry. apply find_none_iff. intros account Hin.
  apply String.eqb_neq. apply (Hnone id account eq_refl Hin).
Qed.

(** X12.  [refreshToken] never writes to the store and never sends a
    mail; when it ends in [next] it has changed nothing at all, and when it
    answers it has signed exactly two tokens. *)
Theorem refreshToken_frame (req : Request) (w : World) :
  users (snd (refreshToken req w)) = users w
  /\ outbox (snd (refreshToken req w)) = outbox w
  /\ (forall e, fst (refreshToken req w) = Next e ->
                snd (refreshToken req w) = w)
  /\ (forall resp, fst (refreshToken req w) = Sent resp ->
                   exists accessToken refreshToken',
                     issued (snd (refreshToken req w))
                     = refreshToken' :: accessToken :: issued w).
Proof.
  unfold refreshToken, catchAsync, refreshToken_handler, bind, verify.
  destruct (jwt_verify _ _ _) as [e|decoded]; simpl.
  { repeat split; discriminate. }
  destruct (truthy decoded); simpl.
  2:{ repeat split; discriminate. }
  unfold findById.
  destruct (match v_id decoded with Some _ => _ | None => _ end)
    as [currentUser|]; simpl.
  2:{ repeat split; discriminate. }
  destruct (changedPasswordAfter_iat _ _); simpl.
  { repeat split; discriminate. }
  repeat split; try discriminate. intros resp _. eauto.
Qed.


(** *** Updating the password *)

(** X13.  The checks of the body come first and in order: without the old
    or the new password, [updatePassword] answers with
    [AppError("Please provide your old and new passwords", 400)], whatever
    the confirmation; with both and without the confirmation, with
    [AppError("Please confirm your password", 400)].  Nothing changes in
    either case. *)
Theorem updatePassword_missing_fields (req : Request) (w : World) :
  (truthy (b_oldPassword (body req)) = false
   \/ truthy (b_newPassword (body req)) = false ->
   updatePassword req w
   = (Next (AppError "Please provide your old and new passwords" 400), w))
  /\ (truthy (b_oldPassword (body req)) = true ->
      truthy (b_newPassword (body req)) = true ->
      truthy (b_passwordConfirm (body req)) = false ->
      updatePassword req w
      = (Next (AppError "Please confirm your password" 400), w)).
Proof.
  unfold updatePassword, catchAsync, updatePassword_handler. split.
  - intros H.
    replace (negb (truthy (b_oldPassword (body req)))
             || negb (truthy (b_newPassword (body req)))) with true;
      [reflexivity|].
    symmetry. apply orb_true_iff. destruct H as [-> | ->]; auto.
  - intros -> -> ->. reflexivity.
Qed.

(** X14.  When the old password given is not the password of the account
    (the comparison resolves to [false]), [updatePassword] answers with
    [AppError("Your current password is wrong.", 401)] and changes
    nothing. *)
Theorem updatePassword_wrong_old_password (req : Request) (w : World)
    (subject user : UserDoc) :
  truthy (b_oldPassword (body req)) = true ->
  truthy (b_newPassword (body req)) = true ->
  truthy (b_passwordConfirm (body req)) = true ->
  req_user req = Some subject ->
  fst (findById (Some (u_id subject)) true w) = Normal (Some user) ->
  u_password user <> Some "undefined"%string ->
  correctPassword (b_oldPassword (body req)) (u_password user) = inr false ->
  updatePassword req w
  = (Next (AppError "Your current password is wrong." 401), w).
Proof.
  intros Hold Hnew Hconfirm Hsubject Hfind Hpassword Hcmp.
  simpl in Hfind. injection Hfind as Hfind.
  unfold updatePassword, catchAsync, updatePassword_handler, bind, findById.
  rewrite Hold, Hnew, Hconfirm, Hsubject. simpl. rewrite Hfind.
  unfold optional_password, strict_eq.
  destruct (u_password user) as [stored|] eqn:Hstored.
  - destruct (String.eqb_spec stored "undefined") as [->|_]; [congruence|].
    simpl. rewrite Hcmp. reflexivity.
  - simpl. rewrite Hcmp. reflexivity.
Qed.

(** X15.  [updatePassword] answers with [AppError("Invalid user", 400)]
    exactly when the body is complete and the stored password of the
    subject is the string ["undefined"]. *)
Theorem updatePassword_invalid_user_iff (req : Request) (w : World) :
  fst (updatePassword req w) = Next (AppError "Invalid user" 400)
  <-> truthy (b_oldPassword (body req)) = true
      /\ truthy (b_newPassword (body req)) = true
      /\ truthy (b_passwordConfirm (body req)) = true
      /\ exists subject user,
           req_user req = Some subject
           /\ fst (findById (Some (u_id subject)) true w) = Normal (Some user)
           /\ u_password user = Some "undefined"%string.
Proof.
  unfold updatePassword, catchAsync, updatePassword_handler, bind.
  destruct (truthy (b_oldPassword (body req))); simpl;
    [|split; [discriminate|intros [H _]; discriminate]].
  destruct (truthy (b_newPassword (body req))); simpl;
    [|split; [discriminate|intros (_ & H & _); discriminate]].
  destruct (truthy (b_passwordConfirm (body req))); simpl;
    [|split; [discriminate|intros (_ & _ & H & _); discriminate]].
  destruct (req_user req) as [subject|]; simpl.
  2:{ split; [discriminate|]. intros (_ & _ & _ & s & u & H & _). discriminate. }
  destruct (find _ (users w)) as [user|] eqn:Hfind; simpl.
  2:{ split; [discriminate|].
      intros (_ & _ & _ & s & u & Hs & Hu & _).
      injection Hs as <-. rewrite Hfind in Hu. discriminate. }
  unfold strict_eq.
  destruct (u_password user) as [stored|] eqn:Hstored; simpl.
  - destruct (String.eqb_spec stored "undefined") as [->|Hne]; simpl.
    + split; [|reflexivity]. intros _. repeat split.
      exists subject, user. rewrite Hfind. auto.
    + split.
      * destruct (correctPassword _ _) as [e|[|]]; simpl; try discriminate.
        unfold save. destruct (_ && _); simpl; discriminate.
      * intros (_ & _ & _ & s & u & Hs & Hu & Hp).
        injection Hs as <-. rewrite Hfind in Hu. injection Hu as <-.
        congruence.
  - split.
    + destruct (correctPassword _ _) as [e|[|]]; simpl; try discriminate.
      unfold save. destruct (_ && _); simpl; discriminate.
    + intros (_ & _ & _ & s & u & Hs & Hu & Hp).
      injection Hs as <-. rewrite Hfind in Hu. injection Hu as <-.
      congruence.
Qed.

Lemma others_persist (doc : UserDoc) (us : list UserDoc) :
  others (u_id doc) (persist doc us) = others (u_id doc) us.
Proof.
  unfold others, persist. induction us as [|stored us IH]; simpl; [reflexivity|].
  destruct (String.eqb_spec (u_id stored) (u_id doc)) as [Heq|Hne]; simpl.
  - rewrite Heq, String.eqb_refl. simpl. exact IH.
  - destruct (String.eqb_spec (u_id stored) (u_id doc)); [contradiction|].
    simpl. rewrite IH. reflexivity.
Qed.

Lemma length_persist (doc : UserDoc) (us : list UserDoc) :
  length (persist doc us) = length us.
Proof. unfold persist. apply length_map. Qed.

(** X16.  An [updatePassword] that ends in [next] has changed nothing; one
    that answers has sent no mail and signed no token, the store has as
    many documents as at the start, and the documents of the accounts other
    than the subject are exactly the ones of the start, in the same
    order. *)
Theorem updatePassword_frame (req : Request) (w : World) :
  (forall e, fst (updatePassword req w) = Next e ->
             snd (updatePassword req w) = w)
  /\ outbox (snd (updatePassword req w)) = outbox w
  /\ issued (snd (updatePassword req w)) = issued w
  /\ length (users (snd (updatePassword req w))) = length (users w)
  /\ (forall subject,
         req_user req = Some subject ->
         others (u_id subject) (users (snd (updatePassword req w)))
         = others (u_id subject) (users w)).
Proof.
  unfold updatePassword, catchAsync, updatePassword_handler, bind.
  destruct (negb _ || negb _); simpl; [repeat split; auto|].
  destruct (negb _); simpl; [repeat split; auto|].
  destruct (req_user req) as [subject|]; simpl; [|repeat split; auto].
  destruct (find _ (users w)) as [user|] eqn:Hfind; simpl;
    [|repeat split; auto].
  assert (Hid : u_id user = u_id subject).
  { apply find_some in Hfind. destruct Hfind as [_ H].
    apply String.eqb_eq in H. exact H. }
  destruct (strict_eq _ _); simpl; [repeat split; auto|].
  destruct (correctPassword _ _) as [e|[|]]; simpl; [repeat split; auto| |
    repeat split; auto].
  unfold save. destruct (_ && _); simpl; [repeat split; auto|].
  repeat split; try discriminate.
  - apply length_persist.
  - intros s Hs. injection Hs as <-. rewrite <- Hid.
    apply (others_persist
             (preSave (clock w)
                (set_passwordConfirm (b_passwordConfirm (body req))
                   (set_password (b_newPassword (body req)) user)))).
Qed.

(** *** Forgotten password *)

(** X17.  When no account has the email of the body, or the body has none,
    [forgotPassword] answers with
    [AppError("There is no user with email address.", 404)] and changes
    nothing: no token is drawn, nothing is saved, logged or sent. *)
Theorem forgotPassword_unknown_email (req : Request) (w : World) :
  (forall email account,
      b_email (body req) = Some email -> In account (users w) ->
      u_email account <> email) ->
  forgotPassword req w
  = (Next (AppError "There is no user with email address." 404), w).
Proof.
  intros Hnone.
  unfold forgotPassword, catchAsync, forgotPassword_handler, bind, findOne_email.
  destruct (b_email (body req)) as [email|]; simpl; [|reflexivity].
  replace (find _ (users w)) with (@None UserDoc); [reflexivity|].
  symmetry. apply find_none_iff. intros account Hin.
  apply String.eqb_neq. apply (Hnone email account eq_refl Hin).
Qed.

Lemma findOne_email_unmodified (email : option string) (w : World)
    (user : UserDoc) :
  fst (findOne_email email false w) = Normal (Some user) ->
  u_passwordModified user = false.
Proof.
  simpl. intros H. injection H as H.
  destruct email; [|discriminate].
  destruct (find _ (users w)); [|discriminate].
  injection H as <-. reflexivity.
Qed.

(** X18.  For an account that is found, [forgotPassword] writes the reset
    link, with the raw token in it, to the console, whether the mail is
    then delivered or not. *)
Theorem forgotPassword_logs_reset_link (req : Request) (w : World)
    (user : UserDoc) :
  fst (findOne_email (b_email (body req)) false w) = Normal (Some user) ->
  console (snd (forgotPassword req w))
  = (protocol req ++ "://" ++ interpolate (host req)
     ++ "/api/v1/users/reset-password/" ++ randomBytes_hex 32 (entropy w))
    :: console w.
Proof.
  intros Hfind. simpl in Hfind. injection Hfind as Hfind.
  unfold forgotPassword, catchAsync, forgotPassword_handler, bind, findOne_email.
  rewrite Hfind.
  unfold createPasswordResetToken, bind, randomBytes, now, ret, save.
  simpl.
  unfold try_catch, bind, console_log, deliver. simpl.
  destruct (transport _); reflexivity.
Qed.

(** X19.  For an account that is found and a transport that delivers,
    [forgotPassword] answers 200 with no token in the answer; the raw token
    goes out in the one mail it sent, addressed to the stored email, and in
    the link it wrote to the console; no token is signed. *)
Theorem forgotPassword_delivered (req : Request) (w : World) (user : UserDoc) :
  fst (findOne_email (b_email (body req)) false w) = Normal (Some user) ->
  transport (reset_mail req user (randomBytes_hex 32 (entropy w))) = None ->
  fst (forgotPassword req w)
  = Sent (mkResponse 200 []
            [("status", JString "success");
             ("message", JString "Token sent to email!")])
  /\ outbox (snd (forgotPassword req w))
     = mkMail PasswordReset (Some (u_email user)) (u_name user)
         (randomBytes_hex 32 (entropy w))
         (protocol req ++ "://" ++ interpolate (host req)
          ++ "/api/v1/users/reset-password/" ++ randomBytes_hex 32 (entropy w))
       :: outbox w
  /\ console (snd (forgotPassword req w))
     = (protocol req ++ "://" ++ interpolate (host req)
        ++ "/api/v1/users/reset-password/" ++ randomBytes_hex 32 (entropy w))
       :: console w
  /\ issued (snd (forgotPassword req w)) = issued w.
Proof.
  intros Hfind Hok.
  pose proof (findOne_email_unmodified _ _ _ Hfind) as Hloaded.
  simpl in Hfind. injection Hfind as Hfind.
  unfold forgotPassword, catchAsync, forgotPassword_handler, bind, findOne_email.
  rewrite Hfind.
  unfold createPasswordResetToken, bind, randomBytes, now, ret, save, preSave.
  simpl. rewrite Hloaded. simpl.
  unfold try_catch, bind, console_log, deliver. simpl.
  unfold reset_mail in Hok. rewrite Hok. simpl. repeat split.
Qed.

(** *** Resetting the password *)

(** X20.  When every stored document that holds the hash of the raw token
    has an expiry that is not later than the clock (the expiry equal to
    the clock included), and so also when no document holds it,
    [resetPassword] answers with
    [AppError("Token is invalid or has expired", 400)] and changes
    nothing. *)
Theorem resetPassword_expired_or_unknown (req : Request) (w : World) :
  (forall d expires,
      In d (users w) ->
      u_passwordResetToken d = Some (sha256_hex (params_token req)) ->
      u_passwordResetExpires d = Some expires ->
      expires <= clock w) ->
  resetPassword req w
  = (Next (AppError "Token is invalid or has expired" 400), w).
Proof.
  intros Hexpired.
  unfold resetPassword, catchAsync, resetPassword_handler, bind, findOne_reset.
  replace (find _ (users w)) with (@None UserDoc); [reflexivity|].
  symmetry. apply find_none_iff. intros d Hin. unfold reset_matches.
  destruct (u_passwordResetToken d) as [h|] eqn:Hh; [|reflexivity].
  destruct (u_passwordResetExpires d) as [expires|] eqn:He; [|reflexivity].
  destruct (String.eqb_spec h (sha256_hex (params_token req))) as [->|_];
    [|reflexivity].
  simpl. apply Z.ltb_ge. apply (Hexpired d expires Hin Hh He).
Qed.

(** X21.  [resetPassword] does not start a session: it signs no token and
    sends no mail, and when it answers, the answer is 200 with no cookie
    and no token. *)
Theorem resetPassword_no_session (req : Request) (w : World) :
  issued (snd (resetPassword req w)) = issued w
  /\ outbox (snd (resetPassword req w)) = outbox w
  /\ (forall resp,
         fst (resetPassword req w) = Sent resp ->
         resp = mkResponse 200 []
                  [("status", JString "success");
                   ("message", JString "Password reset successful. Please, log in with your new password.")]).
Proof.
  unfold resetPassword, catchAsync, resetPassword_handler, bind, findOne_reset.
  destruct (find _ (users w)) as [account|]; simpl;
    [|repeat split; discriminate].
  unfold save. simpl. destruct (validates _ _); simpl.
  - repeat split. intros resp H. injection H as <-. reflexivity.
  - repeat split. discriminate.
Qed.

(** X22.  A [resetPassword] that ends in [next] has changed nothing, a
    failed validation of the new password included; in every case the
    store has as many documents as at the start, and when the token matched
    an account, the documents of the other accounts are exactly the ones of
    the start, in the same order. *)
Theorem resetPassword_frame (req : Request) (w : World) :
  (forall e, fst (resetPassword req w) = Next e ->
             snd (resetPassword req w) = w)
  /\ length (users (snd (resetPassword req w))) = length (users w)
  /\ (forall account,
         find (reset_matches (sha256_hex (params_token req)) (clock w))
           (users w) = Some account ->
         others (u_id account) (users (snd (resetPassword req w)))
         = others (u_id account) (users w)).
Proof.
  unfold resetPassword, catchAsync, resetPassword_handler, bind, findOne_reset.
  destruct (find _ (users w)) as [account|]; simpl;
    [|repeat split; auto; discriminate].
  unfold save. simpl. destruct (validates _ _); simpl; [|repeat split; auto].
  repeat split; try discriminate.
  - apply length_persist.
  - intros a Ha. injection Ha as <-.
    apply (others_persist
             (preSave (clock w)
                (set_passwordResetExpires None
                   (set_passwordResetToken None
                      (set_passwordConfirm (b_passwordConfirm (body req))
                         (set_password (b_password (body req))
                            (load false account))))))).
Qed.

(** *** Logout and the status codes *)

(** X23.  The status codes of the errors the handlers build: an
    [AppError] passed to [next] has status 400 from [verifyAccount] and
    [resetPassword], 401 from [signUp], 400 or 401 from [login],
    [refreshToken] and [updatePassword], 404 or 500 from
    [forgotPassword]; [logout] never calls [next]. *)
Theorem AppError_status_codes (req : Request) (w : World) (message : string)
    (statusCode : Z) :
  (fst (verifyAccount req w) = Next (AppError message statusCode) ->
   statusCode = 400)
  /\ (fst (signUp req w) = Next (AppError message statusCode) ->
      statusCode = 401)
  /\ (fst (login req w) = Next (AppError message statusCode) ->
      statusCode = 400 \/ statusCode = 401)
  /\ (fst (refreshToken req w) = Next (AppError message statusCode) ->
      statusCode = 400 \/ statusCode = 401)
  /\ (fst (updatePassword req w) = Next (AppError message statusCode) ->
      statusCode = 400 \/ statusCode = 401)
  /\ (fst (forgotPassword req w) = Next (AppError message statusCode) ->
      statusCode = 404 \/ statusCode = 500)
  /\ (fst (resetPassword req w) = Next (AppError message statusCode) ->
      statusCode = 400)
  /\ (forall e, fst (logout req w) <> Next e).
Proof.
  repeat apply conj.
  - unfold verifyAccount, catchAsync, verifyAccount_handler, bind, findOne_email.
    destruct (truthy _); simpl; [congruence|].
    unfold createVerificationToken, bind, randomBytes, sign, ret, deliver; simpl.
    destruct (transport _); simpl; discriminate.
  - unfold signUp, catchAsync, signUp_handler, bind, verify.
    destruct (jwt_verify _ _ _); simpl; [discriminate|].
    destruct (loose_neq _ _); simpl; [congruence|].
    destruct (v_user _) as [fields|]; simpl; [|discriminate].
    unfold create. simpl.
    destruct (reg_email fields); simpl; [|discriminate].
    destruct (validates _ _); simpl; [|discriminate].
    destruct (existsb _ _); simpl; discriminate.
  - unfold login, catchAsync, login_handler, bind, findOne_email.
    destruct (negb _ || negb _); simpl; [intros H; left; congruence|].
    destruct (match b_email (body req) with Some _ => _ | None => _ end);
      simpl; [|intros H; right; congruence].
    destruct (correctPassword _ _) as [e|[|]]; simpl;
      [discriminate|discriminate|intros H; right; congruence].
  - unfold refreshToken, catchAsync, refreshToken_handler, bind, verify, findById.
    destruct (jwt_verify _ _ _) as [e|decoded]; simpl; [discriminate|].
    destruct (truthy decoded); simpl; [|intros H; left; congruence].
    destruct (match v_id decoded with Some _ => _ | None => _ end); simpl;
      [|intros H; left; congruence].
    destruct (changedPasswordAfter_iat _ _); simpl;
      [intros H; right; congruence|discriminate].
  - unfold updatePassword, catchAsync, updatePassword_handler, bind, findById.
    destruct (negb _ || negb _); simpl; [intros H; left; congruence|].
    destruct (negb _); simpl; [intros H; left; congruence|].
    destruct (req_user req); simpl; [|discriminate].
    destruct (find _ (users w)); simpl; [|discriminate].
    destruct (strict_eq _ _); simpl; [intros H; left; congruence|].
    destruct (correctPassword _ _) as [e|[|]]; simpl;
      [discriminate| |intros H; right; congruence].
    unfold save. destruct (_ && _); simpl; discriminate.
  - unfold forgotPassword, catchAsync, forgotPassword_handler, bind, findOne_email.
    destruct (match b_email (body req) with Some _ => _ | None => _ end);
      simpl; [|intros H; left; congruence].
    unfold createPasswordResetToken, bind, randomBytes, now, ret, save.
    simpl.
    unfold try_catch, bind, console_log, deliver. simpl.
    destruct (transport _); simpl; [intros H; right; congruence|discriminate].
  - unfold resetPassword, catchAsync, resetPassword_handler, bind, findOne_reset.
    destruct (find _ (users w)); simpl; [|congruence].
    unfold save. simpl. destruct (validates _ _); simpl; discriminate.
  - intros e. unfold logout, catchAsync, logout_handler, try_catch, send, ret.
    simpl. discriminate.
Qed.


End Behaviour.


(** ** The properties on the small instance *)

(** Registering with the email of Grace, who has an account. *)
Lemma verifyAccount_duplicate_email_witness :
  In Demo.grace (users (Demo.world [Demo.grace]))
  /\ verifyAccount (env := Demo.env) Demo.register_grace (Demo.world [Demo.grace])
     = (Next (AppError "Email Already exists" 400), Demo.world [Demo.grace]).
Proof.
  split; [simpl; auto|].
  apply (verifyAccount_duplicate_email (env := Demo.env) Demo.register_grace
           (Demo.world [Demo.grace]) "grace@x.com" Demo.grace).
  - reflexivity.
  - simpl; auto.
  - reflexivity.
Defined.

(** Opening the signup link with a nonce that is not the one of the token. *)
Lemma signUp_nonce_mismatch_witness :
  signUp (env := Demo.env) Demo.signup_request (Demo.world [])
  = (Next (AppError "Invalid token. Please try again" 401), Demo.world []).
Proof.
  apply (signUp_nonce_mismatch (env := Demo.env) Demo.signup_request
           (Demo.world [])
           (VObject (mkDecoded (Some Demo.ada) (Some "c0ffee") None 100))).
  - reflexivity.
  - discriminate.
Defined.

(** A wrong password for Grace on a store without her and on a store with her. *)
Lemma login_no_user_existence_leak_witness :
  fst (login (env := Demo.env) Demo.login_grace_wrong (Demo.world []))
  = fst (login (env := Demo.env) Demo.login_grace_wrong (Demo.world [Demo.grace]))
  /\ fst (login (env := Demo.env) Demo.login_grace_wrong (Demo.world []))
     = Next (AppError "Incorrect email or password" 401).
Proof.
  destruct (login_no_user_existence_leak (env := Demo.env)
              Demo.login_grace_wrong (Demo.world []) (Demo.world [Demo.grace])
              Demo.grace eq_refl eq_refl eq_refl) as (Hsame & _ & _ & Hkind).
  split; [exact Hsame|].
  apply Hkind; reflexivity.
Defined.

(** A refresh token issued at 100, for Grace who changed her password at 200 and for Grace who never changed it. *)
Lemma refreshToken_freshness_witness :
  refreshToken (env := Demo.env) Demo.refresh_request
    (Demo.world [Demo.grace_changed])
  = (Next (AppError "User recently changed password! Please log in again." 401),
     Demo.world [Demo.grace_changed])
  /\ fst (refreshToken (env := Demo.env) Demo.refresh_request
            (Demo.world [Demo.grace]))
     = Sent (mkResponse 200
               [mkCookie "access_token" "access.jwt"
                  (mkCookieOptions (Some 300000) true false);
                mkCookie "refresh_token" "refresh.jwt"
                  (mkCookieOptions (Some 259200000) true false)]
               [("status", JString "success");
                ("accessToken", JString "access.jwt");
                ("refreshToken", JString "refresh.jwt")]).
Proof.
  split.
  - apply (proj1 (refreshToken_freshness (env := Demo.env) Demo.refresh_request
                    (Demo.world [Demo.grace_changed])
                    (mkDecoded None None (Some "u1") 100)
                    (load false Demo.grace_changed) eq_refl eq_refl) 200).
    + reflexivity.
    + simpl. lia.
  - rewrite (proj2 (refreshToken_freshness (env := Demo.env) Demo.refresh_request
                      (Demo.world [Demo.grace])
                      (mkDecoded None None (Some "u1") 100)
                      (load false Demo.grace) eq_refl eq_refl)).
    + reflexivity.
    + intros changedAt H. discriminate H.
Defined.

(** Updating the password of a subject whose account is gone from the store. *)
Lemma updatePassword_missing_account_throws_witness :
  updatePassword (env := Demo.env) (Demo.update_request Demo.grace)
    (Demo.world [])
  = (Next (TypeError "Cannot read properties of null (reading 'correctPassword')"),
     Demo.world []).
Proof.
  apply (updatePassword_missing_account_throws (env := Demo.env)
           (Demo.update_request Demo.grace) (Demo.world []) Demo.grace);
    reflexivity.
Defined.

(** Updating the password of an account stored without a password: the error of the comparison is what comes out. *)
Lemma updatePassword_absent_password_not_rejected_witness :
  updatePassword (env := Demo.env) (Demo.update_request Demo.ghost)
    (Demo.world [Demo.ghost])
  = (Next (JsError (mkLibError "Error" "data and hash arguments required")),
     Demo.world [Demo.ghost]).
Proof.
  apply (proj2 (updatePassword_absent_password_not_rejected (env := Demo.env)
                  (Demo.update_request Demo.ghost) (Demo.world [Demo.ghost])
                  Demo.ghost Demo.ghost eq_refl eq_refl eq_refl eq_refl
                  eq_refl eq_refl)).
  reflexivity.
Defined.

(** A forgotten password while the transport is down: the store ends as it started. *)
Lemma forgotPassword_delivery_failure_witness :
  exists w',
    forgotPassword (env := Demo.env) Demo.forgot_request
      (Demo.world [Demo.grace])
    = (Next (AppError "There was an error sending the email. Try again later!" 500), w')
    /\ users w' = [Demo.grace].
Proof.
  destruct (forgotPassword_delivery_failure (env := Demo.env)
              Demo.forgot_request (Demo.world [Demo.grace])
              (load false Demo.grace)
              (mkLibError "Error" "connect ECONNREFUSED") eq_refl eq_refl)
    as (w' & Hrun & Hstore & _).
  exists w'. split; [exact Hrun|].
  rewrite Hstore. reflexivity.
Defined.





(** ** The further properties on the small instance *)

(** A header with the scheme [Bearer] and one with a longer scheme. *)
Lemma bearer_of_scheme_and_token_witness :
  bearer (Demo.plain_request (Some "Bearer signup.jwt")) = Some "signup.jwt"
  /\ bearer (Demo.plain_request (Some "BearerX signup.jwt")) = Some "signup.jwt".
Proof.
  split.
  - apply (bearer_of_scheme_and_token
             (Demo.plain_request (Some "Bearer signup.jwt")) "Bearer"
             "signup.jwt"); reflexivity.
  - apply (bearer_of_scheme_and_token
             (Demo.plain_request (Some "BearerX signup.jwt")) "BearerX"
             "signup.jwt"); reflexivity.
Defined.

(** The token glued to the scheme. *)
Lemma bearer_without_space_witness :
  bearer (Demo.plain_request (Some "Bearersignup.jwt")) = None.
Proof.
  apply (bearer_without_space (Demo.plain_request (Some "Bearersignup.jwt"))).
  intros header H. injection H as <-. reflexivity.
Defined.

(** A token that the application did not sign. *)
Lemma signUp_unverifiable_token_witness :
  signUp (env := Demo.env) Demo.forged_signup_request (Demo.world [])
  = (Next (JsError (mkLibError "JsonWebTokenError" "jwt malformed")),
     Demo.world []).
Proof.
  apply (signUp_unverifiable_token (env := Demo.env)
           Demo.forged_signup_request (Demo.world [])).
  reflexivity.
Defined.

(** An empty password for Grace, who has an account. *)
Lemma login_missing_credentials_witness :
  login (env := Demo.env) Demo.login_without_password (Demo.world [Demo.grace])
  = (Next (AppError "Please provide email and password!" 400),
     Demo.world [Demo.grace]).
Proof.
  apply (login_missing_credentials (env := Demo.env)
           Demo.login_without_password (Demo.world [Demo.grace])).
  right. reflexivity.
Defined.

(** A wrong password for Grace. *)
Lemma login_rejected_unchanged_witness :
  snd (login (env := Demo.env) Demo.login_grace_wrong (Demo.world [Demo.grace]))
  = Demo.world [Demo.grace].
Proof.
  apply (login_rejected_unchanged (env := Demo.env) Demo.login_grace_wrong
           (Demo.world [Demo.grace])
           (AppError "Incorrect email or password" 401)).
  reflexivity.
Defined.

(** Grace registers on an empty store. *)
Lemma verifyAccount_binds_nonce_witness :
  issued (snd (verifyAccount (env := Demo.env) Demo.register_grace
                 (Demo.world [])))
  = ["signup.jwt"]%string
  /\ outbox (snd (verifyAccount (env := Demo.env) Demo.register_grace
                    (Demo.world [])))
     = [mkMail ActivateRegistration (Some "grace@x.com") (Some "Grace") "c0ffee"
          "https://tours.example/api/v1/users/signup/c0ffee"].
Proof.
  destruct (verifyAccount_binds_nonce (env := Demo.env) Demo.register_grace
              (Demo.world [])
              (snd (verifyAccount (env := Demo.env) Demo.register_grace
                      (Demo.world [])))
              (mkResponse 201 []
                 [("success", JBool true);
                  ("message", JString "Please check your email: grace@x.com to activate your account!");
                  ("token", JString "signup.jwt")])
              eq_refl) as (_ & Hmail & Hissued & _).
  split; [exact Hissued|exact Hmail].
Defined.

(** Grace registers while the transport is down. *)
Lemma verifyAccount_delivery_failure_witness :
  verifyAccount (env := Demo.env_offline) Demo.register_grace (Demo.world [])
  = (Next (JsError (mkLibError "Error" "connect ECONNREFUSED")),
     mkWorld [] [] ["signup.jwt"]%string [] 1 1000).
Proof.
  apply (verifyAccount_delivery_failure (env := Demo.env_offline)
           Demo.register_grace (Demo.world [])
           (mkLibError "Error" "connect ECONNREFUSED")); reflexivity.
Defined.

(** A request without the cookie. *)
Lemma refreshToken_unverifiable_token_witness :
  refreshToken (env := Demo.env) (Demo.request Demo.no_body)
    (Demo.world [Demo.grace])
  = (Next (JsError (mkLibError "JsonWebTokenError" "jwt must be provided")),
     Demo.world [Demo.grace]).
Proof.
  apply (refreshToken_unverifiable_token (env := Demo.env)
           (Demo.request Demo.no_body) (Demo.world [Demo.grace])).
  reflexivity.
Defined.

(** The refresh token of Grace after her account was removed. *)
Lemma refreshToken_unknown_subject_witness :
  refreshToken (env := Demo.env) Demo.refresh_request (Demo.world [Demo.ghost])
  = (Next (AppError "Please login to access these resources!" 400),
     Demo.world [Demo.ghost]).
Proof.
  apply (refreshToken_unknown_subject (env := Demo.env) Demo.refresh_request
           (Demo.world [Demo.ghost])
           (VObject (mkDecoded None None (Some "u1") 100))).
  - reflexivity.
  - reflexivity.
  - intros id account Hid [<-|[]]. injection Hid as <-. discriminate.
Defined.

(** Grace gives an old password that is not hers. *)
Lemma updatePassword_wrong_old_password_witness :
  updatePassword (env := Demo.env) (Demo.update_request_wrong Demo.grace)
    (Demo.world [Demo.grace])
  = (Next (AppError "Your current password is wrong." 401),
     Demo.world [Demo.grace]).
Proof.
  apply (updatePassword_wrong_old_password (env := Demo.env)
           (Demo.update_request_wrong Demo.grace) (Demo.world [Demo.grace])
           Demo.grace Demo.grace); try reflexivity.
  discriminate.
Defined.

(** A forgotten password for an email that has no account. *)
Lemma forgotPassword_unknown_email_witness :
  forgotPassword (env := Demo.env) Demo.forgot_request (Demo.world [Demo.ghost])
  = (Next (AppError "There is no user with email address." 404),
     Demo.world [Demo.ghost]).
Proof.
  apply (forgotPassword_unknown_email (env := Demo.env) Demo.forgot_request
           (Demo.world [Demo.ghost])).
  intros email account Hemail [<-|[]]. injection Hemail as <-. discriminate.
Defined.

(** A forgotten password of Grace while the transport is down for resets. *)
Lemma forgotPassword_logs_reset_link_witness :
  console (snd (forgotPassword (env := Demo.env) Demo.forgot_request
                  (Demo.world [Demo.grace])))
  = ["https://tours.example/api/v1/users/reset-password/c0ffee"]%string.
Proof.
  apply (forgotPassword_logs_reset_link (env := Demo.env) Demo.forgot_request
           (Demo.world [Demo.grace]) (load false Demo.grace)).
  reflexivity.
Defined.

(** A forgotten password of Grace with a transport that delivers. *)
Lemma forgotPassword_delivered_witness :
  outbox (snd (forgotPassword (env := Demo.env_delivering) Demo.forgot_request
                 (Demo.world [Demo.grace])))
  = [mkMail PasswordReset (Some "grace@x.com") (Some "Grace") "c0ffee"
       "https://tours.example/api/v1/users/reset-password/c0ffee"].
Proof.
  destruct (forgotPassword_delivered (env := Demo.env_delivering)
              Demo.forgot_request (Demo.world [Demo.grace])
              (load false Demo.grace) eq_refl eq_refl) as (_ & Hmail & _).
  exact Hmail.
Defined.

(** The token of Grace at the very time it expires. *)
Lemma resetPassword_expired_or_unknown_witness :
  resetPassword (env := Demo.env) Demo.reset_request
    (Demo.world [Demo.grace_expiring])
  = (Next (AppError "Token is invalid or has expired" 400),
     Demo.world [Demo.grace_expiring]).
Proof.
  apply (resetPassword_expired_or_unknown (env := Demo.env) Demo.reset_request
           (Demo.world [Demo.grace_expiring])).
  intros d expires [<-|[]] _ H. injection H as <-. simpl. lia.
Defined.


(** ** Runs of the handlers on the small instance *)

Example split_space_bearer :
  split_space "Bearer signup.jwt" = ["Bearer"; "signup.jwt"]%string.
Proof. reflexivity. Qed.

Example bearer_of_header :
  bearer Demo.signup_request = Some "signup.jwt"
  /\ bearer (Demo.request Demo.no_body) = None.
Proof. split; reflexivity. Qed.

(** Registering a new email signs a verification token, sends the
    activation mail with the nonce and stores nothing. *)
Example verifyAccount_run :
  verifyAccount (env := Demo.env) Demo.register_grace (Demo.world [])
  = (Sent (mkResponse 201 []
             [("success", JBool true);
              ("message", JString "Please check your email: grace@x.com to activate your account!");
              ("token", JString "signup.jwt")]),
     mkWorld []
       [mkMail ActivateRegistration (Some "grace@x.com") (Some "Grace") "c0ffee"
          "https://tours.example/api/v1/users/signup/c0ffee"]
       ["signup.jwt"] [] 1 1000).
Proof. reflexivity. Qed.

(** Opening the signup link with the nonce of the token creates the account
    with a hashed password and starts the session. *)
Example signUp_run :
  let req := mkRequest Demo.no_body (Some "Bearer signup.jwt") "c0ffee" "" None
               "https" (Some "tours.example") None in
  let w' := snd (signUp (env := Demo.env) req (Demo.world [])) in
  users w'
  = [mkUserDoc "u0" (Some "Ada") "ada@x.com" (Some "bcrypt:secret123") None None
       None None false]
  /\ (exists cookies json,
         fst (signUp (env := Demo.env) req (Demo.world []))
         = Sent (mkResponse 201 cookies json))
  /\ (exists cookies json,
         fst (login (env := Demo.env)
                (Demo.request (mkBody None (Some "ada@x.com") (Some "secret123")
                                 None None None)) w')
         = Sent (mkResponse 200 cookies json)).
Proof. repeat split; repeat eexists; reflexivity. Qed.

(** A forgotten password with a working transport stores the hash of the
    token, not the token, and a reset with the raw token then succeeds. *)
Example forgotPassword_run :
  let env' : Env :=
    {| VERIFY_EMAIL_SECRET := "verify-secret";
       VERIFY_EMAIL_EXPIRES_IN := "10m";
       ACCESS_TOKEN := "access-secret";
       REFRESH_TOKEN := "refresh-secret";
       jwt_sign := Demo.sign_table;
       jwt_verify := Demo.verify_table;
       randomBytes_hex := fun _ _ => "c0ffee";
       sha256_hex := fun s => "sha256:" ++ s;
       transport := fun _ => None;
       correctPassword := Demo.compare_hash;
       hashPassword := fun p => "bcrypt:" ++ p;
       passwordPolicy := fun p => (8 <=? String.length p)%nat;
       resetTokenLifetime := 600000;
       ObjectId := fun _ => "u0";
       accessTokenOptions := mkCookieOptions None true false;
       refreshTokenOptions := mkCookieOptions None true false |} in
  let w' := snd (forgotPassword (env := env') Demo.forgot_request
                   (Demo.world [Demo.grace])) in
  users w'
  = [mkUserDoc "u1" (Some "Grace") "grace@x.com" (Some "bcrypt:hopper1906")
       None None (Some "sha256:c0ffee") (Some 601000) false]
  /\ users (snd (resetPassword (env := env') Demo.reset_request w'))
     = [mkUserDoc "u1" (Some "Grace") "grace@x.com" (Some "bcrypt:lovelace1815")
          None (Some 1000) None None false].
Proof. split; reflexivity. Qed.
